(** * gogios benchmark plots: the CSV-to-chart pipeline of bench/plot_*.py

    The three scripts [bench/plot_results.py], [bench/plot_readme.py] and
    [bench/plot_nrdp.py] load benchmark CSV files with [csv.DictReader],
    project named columns to floating point, and drive matplotlib to build
    and save comparison figures.

    The scripts are embedded as programs of a state-and-exception monad over
    a [world] (input files, directories, the heap of loaded row lists, the
    images written and the console).  What the scripts take from the Python
    runtime is modelled next to them:
    - [float] on a string follows Python's [float()]: whitespace and decimal
      digits of any script are brought to ASCII, and the grammar of the
      float literal is read; it keeps the exact decimal value of the literal
      (the rounding to binary64 is not part of the model);
    - [csv.reader] is represented by the sequence of rows it yields for a
      file, [csv.DictReader] by its [__next__];
    - a matplotlib [Axes] is the sequence of calls made on it, from which the
      resulting scale, colours and series are read back;
    - whether matplotlib can lay out and render a figure depends on the data
      in ways that are matplotlib's own (it raises on a logarithmic axis
      with no rows, with nan or with values out of range); its answer is
      taken from the [backend] the world carries. *)

From Stdlib Require Import ZArith QArith Qpower String Ascii List Lia.
From stdpp Require Import base option list strings gmap.

Local Close Scope Q_scope.
Local Open Scope string_scope.
Local Open Scope list_scope.
Local Open Scope nat_scope.

(** ** Exceptions and results *)

Inductive exn : Type :=
| FileNotFoundError (path : string)     (* open(): no such file or directory *)
| PermissionError (path : string)       (* open(): the file cannot be read *)
| csv_Error                             (* csv.Error raised by the tokenizer *)
| KeyError (key : string)               (* r[key] on a dict without key *)
| TypeError                             (* float(None), float([...]) *)
| ValueError (s : string)               (* float(s): could not convert string to float *)
| ValueError_shape (nx ny : nat)        (* Axes.plot: x and y must have same first dimension *)
| ValueError_draw (msg : string)        (* tight_layout, savefig: the figure cannot be drawn *)
| SystemError.                          (* a reference to no object; the scripts never hold one *)

Inductive result (A : Type) : Type :=
| Ok (a : A)
| Raise (e : exn).
Arguments Ok {A} a.
Arguments Raise {A} e.

Definition rbind {A B} (r : result A) (k : A -> result B) : result B :=
  match r with
  | Ok a => k a
  | Raise e => Raise e
  end.

Notation "'let?' x ':=' r 'in' k" := (rbind r (fun x => k))
  (at level 10, x name, r at level 100, k at level 200).

(** The error names of the design document, as classes of Python exceptions. *)
Definition NotFoundError (e : exn) : bool :=
  match e with
  | FileNotFoundError _ | PermissionError _ => true
  | _ => false
  end.

Definition FormatError (e : exn) : bool :=
  match e with
  | csv_Error => true
  | _ => false
  end.

(** What [float()] raises on a value it cannot convert. *)
Definition ConversionError (e : exn) : bool :=
  match e with
  | TypeError | ValueError _ => true
  | _ => false
  end.

(** A list comprehension [[f(r) for r in rows]]: elements are evaluated left
    to right into a fresh list; the first exception abandons the list built
    so far and propagates. *)
Fixpoint comprehension_from {A B} (f : A -> result B) (acc : list B) (rows : list A)
  : result (list B) :=
  match rows with
  | [] => Ok acc
  | r :: rows' =>
      match f r with
      | Ok v => comprehension_from f (acc ++ [v]) rows'
      | Raise e => Raise e
      end
  end.

Definition comprehension {A B} (f : A -> result B) (rows : list A) : result (list B) :=
  comprehension_from f [] rows.

(** ** Python's [float()] on text *)

Inductive pyfloat : Type :=
| Finite (negative : bool) (digits : N) (exp10 : Z)   (* (-1)^negative * digits * 10^exp10 *)
| Infinity (negative : bool)
| NaN.

(** [Py_ISSPACE]: the whitespace [float()] strips, which is tab, line feed,
    vertical tab, form feed, carriage return and space. *)
Definition is_space (c : ascii) : bool :=
  let n := nat_of_ascii c in
  ((9 <=? n) && (n <=? 13)) || (n =? 32).

Definition is_digit (c : ascii) : bool :=
  let n := nat_of_ascii c in (48 <=? n) && (n <=? 57).

Definition lower (c : ascii) : ascii :=
  let n := nat_of_ascii c in
  if (65 <=? n) && (n <=? 90) then ascii_of_nat (n + 32) else c.

(** *** Text beyond ASCII

    A [string] holds text in its UTF-8 form, the form in which Rocq holds
    its own string literals.  [code_points] reads the characters back;
    bytes that are not the UTF-8 form of any text (a stray continuation
    byte, an overlong form, a surrogate, a value above U+10FFFF) have no
    reading, and no file that [open()] has decoded yields them. *)

Definition is_continuation (b : N) : bool := ((128 <=? b) && (b <=? 191))%N.

Fixpoint code_points (bs : list N) : option (list N) :=
  match bs with
  | [] => Some []
  | b0 :: t0 =>
      if (b0 <? 128)%N then option_map (cons b0) (code_points t0)
      else if (b0 <? 194)%N then None
      else
        match t0 with
        | [] => None
        | b1 :: t1 =>
            if negb (is_continuation b1) then None
            else if (b0 <? 224)%N then
              option_map (cons ((b0 - 192) * 64 + (b1 - 128))%N) (code_points t1)
            else
              match t1 with
              | [] => None
              | b2 :: t2 =>
                  if negb (is_continuation b2) then None
                  else if (b0 <? 240)%N then
                    let cp := ((b0 - 224) * 4096 + (b1 - 128) * 64 + (b2 - 128))%N in
                    if (cp <? 2048)%N || ((55296 <=? cp) && (cp <=? 57343))%N then None
                    else option_map (cons cp) (code_points t2)
                  else
                    match t2 with
                    | [] => None
                    | b3 :: t3 =>
                        if negb (is_continuation b3) then None
                        else
                          let cp := ((b0 - 240) * 262144 + (b1 - 128) * 4096
                                     + (b2 - 128) * 64 + (b3 - 128))%N in
                          if (cp <? 65536)%N || (1114111 <? cp)%N then None
                          else option_map (cons cp) (code_points t3)
                    end
              end
        end
  end.

(** [Py_UNICODE_ISSPACE] above ASCII: NEL, the no-break space, the Ogham
    space mark, the spaces U+2000 to U+200A, the line and paragraph
    separators, the narrow no-break space, the medium mathematical space
    and the ideographic space. *)
Definition is_unicode_space (cp : N) : bool :=
  existsb (N.eqb cp) [133; 160; 5760; 8232; 8233; 8239; 8287; 12288]%N
  || ((8192 <=? cp) && (cp <=? 8202))%N.

(** The digit zero of every run of decimal digits (general category Nd) of
    Unicode 14.0, the character database of CPython 3.11; the digits one to
    nine follow their zero. *)
Definition decimal_zeros : list N :=
  [1632; 1776; 1984; 2406; 2534; 2662; 2790; 2918; 3046; 3174; 3302; 3430;
   3558; 3664; 3792; 3872; 4160; 4240; 6112; 6160; 6470; 6608; 6784;
   6800; 6992; 7088; 7232; 7248; 42528; 43216; 43264; 43472; 43504;
   43600; 44016; 65296; 66720; 68912; 69734; 69872; 69942; 70096; 70384;
   70736; 70864; 71248; 71360; 71472; 71904; 72016; 72784; 73040; 73120;
   92768; 92864; 93008; 120782; 120792; 120802; 120812; 120822; 123200;
   123632; 125264; 130032]%N.

(** [Py_UNICODE_TODECIMAL] *)
Definition to_decimal (cp : N) : option N :=
  option_map (fun z => (cp - z)%N)
             (find (fun z => (z <=? cp) && (cp <=? z + 9))%N decimal_zeros).

(** What [float()] does first with text that is not all ASCII: every
    whitespace character becomes a space and every decimal digit its ASCII
    digit; at the first other character above ASCII the text is cut and
    ends in a question mark. *)
Fixpoint transform_decimal_and_space (cps : list N) : list ascii :=
  match cps with
  | [] => []
  | cp :: rest =>
      if (cp <? 127)%N then ascii_of_N cp :: transform_decimal_and_space rest
      else if is_unicode_space cp then " "%char :: transform_decimal_and_space rest
      else
        match to_decimal cp with
        | Some d => ascii_of_N (48 + d) :: transform_decimal_and_space rest
        | None => ["?"%char]
        end
  end.

Definition to_ascii (s : list ascii) : option (list ascii) :=
  if forallb (fun c => (N_of_ascii c <? 128)%N) s then Some s
  else option_map transform_decimal_and_space (code_points (map N_of_ascii s)).

(** Underscores are accepted only between two digits and are dropped. *)
Fixpoint drop_underscores (prev : ascii) (s : list ascii) : option (list ascii) :=
  match s with
  | [] => if Ascii.eqb prev "_" then None else Some []
  | c :: s' =>
      if Ascii.eqb c "_" then
        if is_digit prev then drop_underscores c s' else None
      else if Ascii.eqb prev "_" && negb (is_digit c) then None
      else option_map (cons c) (drop_underscores c s')
  end.

Fixpoint lstrip (s : list ascii) : list ascii :=
  match s with
  | c :: s' => if is_space c then lstrip s' else s
  | [] => []
  end.

Definition strip (s : list ascii) : list ascii := rev (lstrip (rev (lstrip s))).

Fixpoint span_digits (s : list ascii) : list ascii * list ascii :=
  match s with
  | c :: s' =>
      if is_digit c then let '(ds, rest) := span_digits s' in (c :: ds, rest)
      else ([], s)
  | [] => ([], [])
  end.

Definition digits_value (ds : list ascii) : N :=
  fold_left (fun acc c => (acc * 10 + (N_of_ascii c - 48))%N) ds 0%N.

Definition split_sign (s : list ascii) : bool * list ascii :=
  match s with
  | "+"%char :: s' => (false, s')
  | "-"%char :: s' => (true, s')
  | _ => (false, s)
  end.

Definition parse_exponent (s : list ascii) : option Z :=
  match s with
  | [] => Some 0%Z
  | c :: s' =>
      if Ascii.eqb (lower c) "e" then
        let '(neg, s'') := split_sign s' in
        match span_digits s'' with
        | ((_ :: _) as ds, []) =>
            let e := Z.of_N (digits_value ds) in
            Some (if neg then (- e)%Z else e)
        | _ => None
        end
      else None
  end.

Definition parse_number (neg : bool) (s : list ascii) : option pyfloat :=
  let '(ip, r1) := span_digits s in
  let '(fp, r2) := match r1 with
                   | "."%char :: t => span_digits t
                   | _ => ([], r1)
                   end in
  match ip ++ fp with
  | [] => None
  | ds =>
      match parse_exponent r2 with
      | Some e => Some (Finite neg (digits_value ds) (e - Z.of_nat (length fp)))
      | None => None
      end
  end.

(** [float(s)] on text: the text is brought to ASCII, underscores between
    digits are dropped, whitespace is stripped from both ends, and what is
    left is a signed [inf], [infinity] or [nan] in any case, or a decimal
    number with an optional exponent. *)
Definition float_of_string (s : string) : option pyfloat :=
  match to_ascii (list_ascii_of_string s) with
  | None => None
  | Some ascii_text =>
      match drop_underscores zero ascii_text with
      | None => None
      | Some cs =>
          let '(neg, body) := split_sign (strip cs) in
          let word := string_of_list_ascii (map lower body) in
          if String.eqb word "inf" || String.eqb word "infinity" then Some (Infinity neg)
          else if String.eqb word "nan" then Some NaN
          else parse_number neg body
      end
  end.

(** [x / 1024] on a float: 1/1024 = 9765625 * 10^-10 exactly. *)
Definition div_1024 (x : pyfloat) : pyfloat :=
  match x with
  | Finite neg m e => Finite neg (m * 9765625)%N (e - 10)%Z
  | Infinity neg => Infinity neg
  | NaN => NaN
  end.

(** [f'{x:,.0f}']: [x] rounded to an integer, ties to even, and its digits
    grouped in threes by commas. *)
Definition round_half_even (m : N) (e : Z) : N :=
  match e with
  | Zneg p =>
      let scale := (10 ^ Npos p)%N in
      let q := (m / scale)%N in
      let r := (m mod scale)%N in
      match (2 * r ?= scale)%N with
      | Lt => q
      | Gt => (q + 1)%N
      | Eq => if N.even q then q else (q + 1)%N
      end
  | _ => (m * 10 ^ Z.to_N e)%N
  end.

Fixpoint decimal_digits (fuel : nat) (n : N) (acc : list ascii) : list ascii :=
  match fuel with
  | O => acc
  | S fuel' =>
      let acc' := ascii_of_N (48 + n mod 10) :: acc in
      if (n / 10 =? 0)%N then acc' else decimal_digits fuel' (n / 10)%N acc'
  end.

(** The digits of [n], most significant first. *)
Definition digits_of (n : N) : list ascii := decimal_digits (S (N.size_nat n)) n [].

(** Commas between groups of three, on digits given least significant
    first; [k] digits of the current group are out already. *)
Fixpoint group_thousands (k : nat) (ds : list ascii) : list ascii :=
  match ds with
  | [] => []
  | d :: ds' =>
      match k with
      | 3 => ","%char :: d :: group_thousands 1 ds'
      | _ => d :: group_thousands (S k) ds'
      end
  end.

Definition format_comma_0f (x : pyfloat) : string :=
  match x with
  | Finite neg m e =>
      let body := rev (group_thousands 0 (rev (digits_of (round_half_even m e)))) in
      string_of_list_ascii (if neg then "-"%char :: body else body)
  | Infinity neg => if neg then "-inf" else "inf"
  | NaN => "nan"
  end.

(** ** [csv.DictReader] *)

(** A value stored in a row dict: a field of the line, [None] (the
    [restval] that pads a short row) or the list of surplus fields (stored
    under the [restkey], which is [None]). *)
Inductive cell : Type :=
| CStr (s : string)
| CNone
| CList (l : list string).

(** A row dict: keys are column names, or [None] for the [restkey]. *)
Abbreviation record := (gmap (option string) cell).

Definition py_dict (kvs : list (option string * cell)) : record :=
  foldl (fun d kv => <[kv.1 := kv.2]> d) empty kvs.

(** The dict built by [DictReader.__next__] from [fieldnames] and a row. *)
Definition dict_row (fieldnames row : list string) : record :=
  let d := py_dict (zip (Some <$> fieldnames) (CStr <$> row)) in
  let lf := length fieldnames in
  let lr := length row in
  if lf <? lr then <[None := CList (drop lf row)]> d
  else if lr <? lf then foldl (fun d key => <[Some key := CNone]> d) d (drop lr fieldnames)
  else d.

(** What iterating [csv.reader(f)] yields: the fields of one line (the empty
    list for a blank line), or a line on which the tokenizer raises. *)
Inductive reader_item : Type :=
| Row (fields : list string)
| Malformed.

(** [list(csv.DictReader(f))], after the header is known: blank rows are
    skipped, every other row becomes a dict. *)
Fixpoint DictReader_rows (fieldnames : list string) (items : list reader_item)
  : result (list record) :=
  match items with
  | [] => Ok []
  | Malformed :: _ => Raise csv_Error
  | Row [] :: rest => DictReader_rows fieldnames rest
  | Row row :: rest =>
      let? rows := DictReader_rows fieldnames rest in
      Ok (dict_row fieldnames row :: rows)
  end.

(** [list(csv.DictReader(f))]: the first row the reader yields is taken as
    [fieldnames]; an exhausted reader gives no rows at all. *)
Definition list_DictReader (items : list reader_item) : result (list record) :=
  match items with
  | [] => Ok []
  | Malformed :: _ => Raise csv_Error
  | Row fieldnames :: rest => DictReader_rows fieldnames rest
  end.

(** [r[key]] *)
Definition getitem (r : record) (key : string) : result cell :=
  match r !! Some key with
  | Some v => Ok v
  | None => Raise (KeyError key)
  end.

(** [float(v)] *)
Definition float (v : cell) : result pyfloat :=
  match v with
  | CStr s =>
      match float_of_string s with
      | Some x => Ok x
      | None => Raise (ValueError s)
      end
  | CNone | CList _ => Raise TypeError
  end.


(** ** matplotlib: figures and axes as the calls made on them *)

Abbreviation rgba := (Q * Q * Q * Q)%type.

(** [ticker.FuncFormatter(lambda x, _: f'{x:SPEC}')], by its format spec. *)
Inductive formatter : Type :=
| FuncFormatter (format_spec : string).

(** The label a formatter gives the tick at [x]; of the format specs only
    [,.0f], the one the scripts use, is spelled out. *)
Definition tick_label (f : formatter) (x : pyfloat) : option string :=
  match f with
  | FuncFormatter spec =>
      if String.eqb spec ",.0f" then Some (format_comma_0f x) else None
  end.

(** The [Axes] methods the scripts call, with the arguments they pass. *)
Inductive ax_call : Type :=
| set_facecolor (color : rgba)
| spine_set_color (spine color : string)
| spine_set_linewidth (spine : string) (w : Q)
| tick_params (colors : string) (labelsize : Q)
| xaxis_label_set_color (color : string)
| yaxis_label_set_color (color : string)
| title_set_color (color : string)
| grid (visible : bool) (alpha : Q) (color : option string) (linewidth : option Q)
| plot (x y : list pyfloat) (fmt label color : string) (linewidth : Q) (markersize : option Q)
| axhline (y : Q) (color linestyle : string) (linewidth alpha : Q) (label : string)
| set_xscale (value : string)
| set_yscale (value : string)
| set_title (label : string) (fontsize : option Q) (fontweight : option string)
| set_xlabel (label : string)
| set_ylabel (label : string)
| legend (loc : option string) (framealpha fontsize : option Q)
| xaxis_set_major_formatter (f : formatter).

(** An [Axes] object: the calls made on it so far, oldest first. *)
Abbreviation axes := (list ax_call).

Definition new_axes : axes := [].

Definition call (ax : axes) (c : ax_call) : axes := ax ++ [c].

(** [ax.spines.values()]: the four spines of a rectangular axes. *)
Definition spines : list string := ["left"; "right"; "bottom"; "top"].

Inductive fig_call : Type :=
| suptitle (t : string) (fontsize : Q) (fontweight : string) (color : option string)
| tight_layout (rect : option rgba)
| patch_set_facecolor (color : rgba).

Record figure : Type := Figure {
  fig_nrows : nat;
  fig_ncols : nat;
  figsize : Q * Q;
  fig_calls : list fig_call;
  fig_axes : list axes
}.

(** [plt.subplots(nrows, ncols, figsize=...)]: a new figure; each of its
    [nrows * ncols] axes is a [new_axes]. *)
Definition subplots (nrows ncols : nat) (size : Q * Q) : figure :=
  Figure nrows ncols size [] (replicate (nrows * ncols) new_axes).

Definition fig_call_on (fig : figure) (c : fig_call) : figure :=
  Figure (fig_nrows fig) (fig_ncols fig) (figsize fig) (fig_calls fig ++ [c]) (fig_axes fig).

(** The axes are objects owned by the figure: drawing the figure sees the
    calls made on them so far.  With axes threaded as values, their current
    state is written back before the figure is laid out or saved. *)
Definition with_axes (fig : figure) (axs : list axes) : figure :=
  Figure (fig_nrows fig) (fig_ncols fig) (figsize fig) (fig_calls fig) axs.

(** *** Reading an axes back *)

Definition last_call {A} (pick : ax_call -> option A) (ax : axes) : option A :=
  fold_left (fun acc c => match pick c with Some v => Some v | None => acc end) ax None.

(** Scales are linear until set. *)
Definition xscale (ax : axes) : string :=
  default "linear" (last_call (fun c => match c with set_xscale v => Some v | _ => None end) ax).

Definition yscale (ax : axes) : string :=
  default "linear" (last_call (fun c => match c with set_yscale v => Some v | _ => None end) ax).

Definition facecolor (ax : axes) : option rgba :=
  last_call (fun c => match c with set_facecolor v => Some v | _ => None end) ax.

Definition spine_color (spine : string) (ax : axes) : option string :=
  last_call (fun c => match c with
                      | spine_set_color s v => if String.eqb s spine then Some v else None
                      | _ => None
                      end) ax.

Definition tick_color (ax : axes) : option string :=
  last_call (fun c => match c with tick_params v _ => Some v | _ => None end) ax.

Definition xlabel_color (ax : axes) : option string :=
  last_call (fun c => match c with xaxis_label_set_color v => Some v | _ => None end) ax.

Definition ylabel_color (ax : axes) : option string :=
  last_call (fun c => match c with yaxis_label_set_color v => Some v | _ => None end) ax.

Definition title_color (ax : axes) : option string :=
  last_call (fun c => match c with title_set_color v => Some v | _ => None end) ax.

(** The last [grid] call: visibility, alpha, colour. *)
Definition grid_style (ax : axes) : option (bool * Q * option string) :=
  last_call (fun c => match c with grid b a col _ => Some (b, a, col) | _ => None end) ax.

Definition major_formatter (ax : axes) : option formatter :=
  last_call (fun c => match c with xaxis_set_major_formatter f => Some f | _ => None end) ax.

Definition title_of (ax : axes) : string :=
  default "" (last_call (fun c => match c with set_title v _ _ => Some v | _ => None end) ax).

Definition ylabel_of (ax : axes) : string :=
  default "" (last_call (fun c => match c with set_ylabel v => Some v | _ => None end) ax).

Definition suptitle_of (fig : figure) : string :=
  default "" (fold_left (fun acc c => match c with suptitle t _ _ _ => Some t | _ => acc end)
                        (fig_calls fig) None).

(** One plotted series: what [plot] drew. *)
Record series : Type := Series {
  s_x : list pyfloat;
  s_y : list pyfloat;
  s_fmt : string;        (* marker and line style, like 'o-' *)
  s_label : string;
  s_color : string
}.

Definition series_of (ax : axes) : list series :=
  omap (fun c => match c with
                 | plot x y fmt label color _ _ => Some (Series x y fmt label color)
                 | _ => None
                 end) ax.

(** The marker of a format string is its first character ('o', 's'). *)
Definition marker (s : series) : option ascii :=
  match s_fmt s with
  | String c _ => Some c
  | EmptyString => None
  end.

(** A file written by [savefig]. *)
Record image : Type := Image {
  img_path : string;
  img_dpi : nat;
  img_bbox_inches : option string;
  img_pad_inches : option Q;
  img_figure : figure
}.

(** The backend chosen by [matplotlib.use('Agg')].  A figure is drawn when
    it is laid out by [tight_layout] and when it is rendered by [savefig],
    and drawing can raise: matplotlib raises a ValueError for data it cannot
    place on a logarithmic axis.  Each function answers [None] when the
    figure is drawn and the message of the error when it is not. *)
Record backend : Type := Backend {
  tight_layout_error : figure -> option rgba -> option string;
  print_figure_error : image -> option string
}.

(** ** The world of a run *)

Inductive file : Type :=
| Unreadable
| Text (lines : list reader_item).

(** A loaded dataset is a Python list object, referred to by its address. *)
Abbreviation ref := nat.

Record world : Type := World {
  files : gmap string file;          (* the input files, by path *)
  dirs : list string;                (* the directories that exist *)
  agg : backend;                     (* what matplotlib can draw *)
  heap : list (list record);         (* the row lists built by read_csv *)
  images : list image;               (* the images written, oldest first *)
  stdout : list string               (* the console, line by line *)
}.

(** The world a script starts in. *)
Definition start (fs : gmap string file) (ds : list string) (b : backend) : world :=
  World fs ds b [] [] [].

Definition M (A : Type) : Type := world -> result A * world.

Definition ret {A} (a : A) : M A := fun w => (Ok a, w).

Definition bind {A B} (m : M A) (k : A -> M B) : M B :=
  fun w => match m w with
           | (Ok a, w') => k a w'
           | (Raise e, w') => (Raise e, w')
           end.

Notation "'let*' x ':=' m 'in' k" := (bind m (fun x => k))
  (at level 10, x name, m at level 100, k at level 200).

Definition lift {A} (r : result A) : M A := fun w => (r, w).

(** [for x in xs: body], collecting what each round returns. *)
Fixpoint for_each {A B} (body : A -> M B) (xs : list A) : M (list B) :=
  match xs with
  | [] => ret []
  | x :: xs' =>
      let* y := body x in
      let* ys := for_each body xs' in
      ret (y :: ys)
  end.

(** [open(path)] followed by reading it through [csv.reader]. *)
Definition open (path : string) : M (list reader_item) :=
  fun w => match files w !! path with
           | None => (Raise (FileNotFoundError path), w)
           | Some Unreadable => (Raise (PermissionError path), w)
           | Some (Text items) => (Ok items, w)
           end.

(** A new list object holding [rows]. *)
Definition new_list (rows : list record) : M ref :=
  fun w => (Ok (length (heap w)),
            World (files w) (dirs w) (agg w) (heap w ++ [rows]) (images w) (stdout w)).

(** The rows of the list object at [r].  Every reference the scripts hold
    comes from [new_list]. *)
Definition deref (r : ref) : M (list record) :=
  fun w => match heap w !! r with
           | Some rows => (Ok rows, w)
           | None => (Raise SystemError, w)
           end.

(** *** [os.path] and [os.makedirs] *)

Definition starts_with_slash (p : string) : bool :=
  match p with
  | String c _ => Ascii.eqb c "/"
  | EmptyString => false
  end.

Fixpoint ends_with_slash (p : string) : bool :=
  match p with
  | EmptyString => false
  | String c EmptyString => Ascii.eqb c "/"
  | String _ p' => ends_with_slash p'
  end.

(** [os.path.join(a, b)] *)
Definition path_join (a b : string) : string :=
  if starts_with_slash b then b
  else if String.eqb a "" || ends_with_slash a then a +:+ b
  else a +:+ "/" +:+ b.

Fixpoint drop_to_slash (s : list ascii) : list ascii :=
  match s with
  | c :: s' => if Ascii.eqb c "/" then s else drop_to_slash s'
  | [] => []
  end.

Fixpoint drop_slashes (s : list ascii) : list ascii :=
  match s with
  | c :: s' => if Ascii.eqb c "/" then drop_slashes s' else s
  | [] => []
  end.

(** [os.path.dirname(p)] *)
Definition dirname (p : string) : string :=
  let head := drop_to_slash (rev (list_ascii_of_string p)) in
  match drop_slashes head with
  | [] => string_of_list_ascii (rev head)
  | stripped => string_of_list_ascii (rev stripped)
  end.

Definition dir_exists (ds : list string) (d : string) : bool :=
  String.eqb d "" || existsb (String.eqb d) ds.

(** The directories [os.makedirs(p)] makes sure of: [p] and its ancestors. *)
Fixpoint ancestors (fuel : nat) (p : string) : list string :=
  match fuel with
  | O => []
  | S fuel' =>
      if String.eqb p "" || String.eqb p (dirname p) then []
      else ancestors fuel' (dirname p) ++ [p]
  end.

(** [os.makedirs(p, exist_ok=True)]; the creation itself is taken to
    succeed. *)
Definition makedirs (p : string) : M unit :=
  fun w => (Ok tt,
            World (files w)
                  (dirs w ++ filter (fun d => negb (dir_exists (dirs w) d))
                                    (ancestors (String.length p) p))
                  (agg w) (heap w) (images w) (stdout w)).

(** *** Writing a figure and the console *)

(** [fig.tight_layout(rect=...)], [plt.tight_layout()]: the figure is drawn
    to measure it, which can raise. *)
Definition Figure_tight_layout (fig : figure) (rect : option rgba) : M figure :=
  fun w => match tight_layout_error (agg w) fig rect with
           | Some msg => (Raise (ValueError_draw msg), w)
           | None => (Ok (fig_call_on fig (tight_layout rect)), w)
           end.

(** [fig.savefig(path, dpi=..., bbox_inches=..., pad_inches=...)]: the figure
    is rendered, which can raise, and then written to [path], which fails
    when the directory of [path] does not exist. *)
Definition savefig (fig : figure) (path : string) (dpi : nat)
    (bbox_inches : option string) (pad_inches : option Q) : M unit :=
  fun w =>
    let img := Image path dpi bbox_inches pad_inches fig in
    match print_figure_error (agg w) img with
    | Some msg => (Raise (ValueError_draw msg), w)
    | None =>
        if dir_exists (dirs w) (dirname path)
        then (Ok tt,
              World (files w) (dirs w) (agg w) (heap w) (images w ++ [img]) (stdout w))
        else (Raise (FileNotFoundError path), w)
    end.

Definition newline : ascii := ascii_of_nat 10.

(** The lines a text ends up as on the console. *)
Fixpoint lines_from (cur : string) (s : string) : list string :=
  match s with
  | EmptyString => [cur]
  | String c s' =>
      if Ascii.eqb c newline then cur :: lines_from "" s'
      else lines_from (cur +:+ String c "") s'
  end.

(** [print(s)] *)
Definition print (s : string) : M unit :=
  fun w => (Ok tt,
            World (files w) (dirs w) (agg w) (heap w) (images w) (stdout w ++ lines_from "" s)).

(** [ax.plot(x, y, fmt, label=..., color=..., linewidth=..., markersize=...)]:
    raises when [x] and [y] differ in length. *)
Definition Axes_plot (ax : axes) (x y : list pyfloat) (fmt label color : string)
    (linewidth : Q) (markersize : option Q) : M axes :=
  lift (if length x =? length y
        then Ok (call ax (plot x y fmt label color linewidth markersize))
        else Raise (ValueError_shape (length x) (length y))).

(** A dict literal with distinct string keys, and [d[key]] on it. *)
Fixpoint dict_get (d : list (string * string)) (key : string) : result string :=
  match d with
  | [] => Raise (KeyError key)
  | (k, v) :: d' => if String.eqb k key then Ok v else dict_get d' key
  end.

(** ** bench/plot_results.py *)

Module plot_results.

Definition read_csv (path : string) : M ref :=
  let* f := open path in
  let* rows := lift (list_DictReader f) in
  new_list rows.

Definition parse (rows : ref) (key : string) : M (list pyfloat) :=
  let* rs := deref rows in
  lift (comprehension (fun r => let? v := getitem r key in float v) rs).

(** [[float(r["mem_rss_kb"])/1024 for r in rows]] *)
Definition mem_rss_mb (rows : ref) : M (list pyfloat) :=
  let* rs := deref rows in
  lift (comprehension (fun r => let? v := getitem r "mem_rss_kb" in
                                let? x := float v in
                                Ok (div_1024 x)) rs).

Definition main : M unit :=
  let v2_path := "bench/scale_results_v2.csv" in
  let v3_path := "bench/scale_results_v3.csv" in
  let out_dir := "bench/graphs" in
  let* _ := makedirs out_dir in
  let* v2 := read_csv v2_path in
  let* v3 := read_csv v3_path in
  let* svcs_v2 := parse v2 "services" in
  let* svcs_v3 := parse v3 "services" in
  let fig := subplots 2 3 (18, 10)%Q in
  let fig := fig_call_on fig
    (suptitle "Gogios Scale Benchmark: v2 (before) vs v3 (after optimizations)" 14 "bold" None) in
  (* 1. Check throughput: ax = axes[0][0] *)
  let ax := new_axes in
  let* y := parse v2 "checks_per_sec" in
  let* ax := Axes_plot ax svcs_v2 y "o-" "v2" "#d62728" 2 None in
  let* y := parse v3 "checks_per_sec" in
  let* ax := Axes_plot ax svcs_v3 y "s-" "v3" "#2ca02c" 2 None in
  let ax := call ax (set_xscale "log") in
  let ax := call ax (set_title "Check Throughput" None None) in
  let ax := call ax (set_xlabel "Services") in
  let ax := call ax (set_ylabel "Checks/sec") in
  let ax := call ax (legend None None None) in
  let ax := call ax (grid true 0.3 None None) in
  let ax := call ax (xaxis_set_major_formatter (FuncFormatter ",.0f")) in
  let ax00 := ax in
  (* 2. Memory RSS: ax = axes[0][1] *)
  let ax := new_axes in
  let* mem_v2 := mem_rss_mb v2 in
  let* mem_v3 := mem_rss_mb v3 in
  let* ax := Axes_plot ax svcs_v2 mem_v2 "o-" "v2" "#d62728" 2 None in
  let* ax := Axes_plot ax svcs_v3 mem_v3 "s-" "v3" "#2ca02c" 2 None in
  let ax := call ax (set_xscale "log") in
  let ax := call ax (set_title "Memory Usage (RSS)" None None) in
  let ax := call ax (set_xlabel "Services") in
  let ax := call ax (set_ylabel "MB") in
  let ax := call ax (legend None None None) in
  let ax := call ax (grid true 0.3 None None) in
  let ax := call ax (xaxis_set_major_formatter (FuncFormatter ",.0f")) in
  let ax01 := ax in
  (* 3. Startup time: ax = axes[0][2] *)
  let ax := new_axes in
  let* y := parse v2 "startup_ms" in
  let* ax := Axes_plot ax svcs_v2 y "o-" "v2" "#d62728" 2 None in
  let* y := parse v3 "startup_ms" in
  let* ax := Axes_plot ax svcs_v3 y "s-" "v3" "#2ca02c" 2 None in
  let ax := call ax (set_xscale "log") in
  let ax := call ax (set_title "Startup Time" None None) in
  let ax := call ax (set_xlabel "Services") in
  let ax := call ax (set_ylabel "ms") in
  let ax := call ax (legend None None None) in
  let ax := call ax (grid true 0.3 None None) in
  let ax := call ax (xaxis_set_major_formatter (FuncFormatter ",.0f")) in
  let ax02 := ax in
  (* 4. LQL Services RPS: ax = axes[1][0] *)
  let ax := new_axes in
  let* y := parse v2 "lql_services_rps" in
  let* ax := Axes_plot ax svcs_v2 y "o-" "v2" "#d62728" 2 None in
  let* y := parse v3 "lql_services_rps" in
  let* ax := Axes_plot ax svcs_v3 y "s-" "v3" "#2ca02c" 2 None in
  let ax := call ax (set_xscale "log") in
  let ax := call ax (set_yscale "log") in
  let ax := call ax (set_title "LQL Services Query RPS" None None) in
  let ax := call ax (set_xlabel "Services") in
  let ax := call ax (set_ylabel "Requests/sec") in
  let ax := call ax (legend None None None) in
  let ax := call ax (grid true 0.3 None None) in
  let ax := call ax (xaxis_set_major_formatter (FuncFormatter ",.0f")) in
  let ax10 := ax in
  (* 5. LQL Hosts RPS: ax = axes[1][1] *)
  let ax := new_axes in
  let* y := parse v2 "lql_hosts_rps" in
  let* ax := Axes_plot ax svcs_v2 y "o-" "v2" "#d62728" 2 None in
  let* y := parse v3 "lql_hosts_rps" in
  let* ax := Axes_plot ax svcs_v3 y "s-" "v3" "#2ca02c" 2 None in
  let ax := call ax (set_xscale "log") in
  let ax := call ax (set_yscale "log") in
  let ax := call ax (set_title "LQL Hosts Query RPS" None None) in
  let ax := call ax (set_xlabel "Services") in
  let ax := call ax (set_ylabel "Requests/sec") in
  let ax := call ax (legend None None None) in
  let ax := call ax (grid true 0.3 None None) in
  let ax := call ax (xaxis_set_major_formatter (FuncFormatter ",.0f")) in
  let ax11 := ax in
  (* 6. LQL Stats RPS: ax = axes[1][2] *)
  let ax := new_axes in
  let* y := parse v2 "lql_stats_rps" in
  let* ax := Axes_plot ax svcs_v2 y "o-" "v2" "#d62728" 2 None in
  let* y := parse v3 "lql_stats_rps" in
  let* ax := Axes_plot ax svcs_v3 y "s-" "v3" "#2ca02c" 2 None in
  let ax := call ax (set_xscale "log") in
  let ax := call ax (set_yscale "log") in
  let ax := call ax (set_title "LQL Stats Query RPS" None None) in
  let ax := call ax (set_xlabel "Services") in
  let ax := call ax (set_ylabel "Requests/sec") in
  let ax := call ax (legend None None None) in
  let ax := call ax (grid true 0.3 None None) in
  let ax := call ax (xaxis_set_major_formatter (FuncFormatter ",.0f")) in
  let ax12 := ax in
  (* plt.tight_layout(); plt.savefig(...): the current figure is fig *)
  let fig := with_axes fig [ax00; ax01; ax02; ax10; ax11; ax12] in
  let* fig := Figure_tight_layout fig None in
  let* _ := savefig fig (path_join out_dir "scale_comparison.png") 150 None None in
  let* _ := print ("Saved " +:+ out_dir +:+ "/scale_comparison.png") in
  (* Second figure: latency *)
  let fig2 := subplots 1 2 (14, 5)%Q in
  let fig2 := fig_call_on fig2 (suptitle "LQL P95 Latency: v2 vs v3" 14 "bold" None) in
  (* ax = axes2[0] *)
  let ax := new_axes in
  let* y := parse v2 "lql_hosts_p95_ms" in
  let* ax := Axes_plot ax svcs_v2 y "o-" "v2" "#d62728" 2 None in
  let* y := parse v3 "lql_hosts_p95_ms" in
  let* ax := Axes_plot ax svcs_v3 y "s-" "v3" "#2ca02c" 2 None in
  let ax := call ax (set_xscale "log") in
  let ax := call ax (set_yscale "log") in
  let ax := call ax (set_title "Hosts Query P95 Latency" None None) in
  let ax := call ax (set_xlabel "Services") in
  let ax := call ax (set_ylabel "ms") in
  let ax := call ax (legend None None None) in
  let ax := call ax (grid true 0.3 None None) in
  let ax := call ax (xaxis_set_major_formatter (FuncFormatter ",.0f")) in
  let ax0 := ax in
  (* ax = axes2[1] *)
  let ax := new_axes in
  let* y := parse v2 "lql_services_p95_ms" in
  let* ax := Axes_plot ax svcs_v2 y "o-" "v2" "#d62728" 2 None in
  let* y := parse v3 "lql_services_p95_ms" in
  let* ax := Axes_plot ax svcs_v3 y "s-" "v3" "#2ca02c" 2 None in
  let ax := call ax (set_xscale "log") in
  let ax := call ax (set_yscale "log") in
  let ax := call ax (set_title "Services Query P95 Latency" None None) in
  let ax := call ax (set_xlabel "Services") in
  let ax := call ax (set_ylabel "ms") in
  let ax := call ax (legend None None None) in
  let ax := call ax (grid true 0.3 None None) in
  let ax := call ax (xaxis_set_major_formatter (FuncFormatter ",.0f")) in
  let ax1 := ax in
  let fig2 := with_axes fig2 [ax0; ax1] in
  let* fig2 := Figure_tight_layout fig2 None in
  let* _ := savefig fig2 (path_join out_dir "latency_comparison.png") 150 None None in
  print ("Saved " +:+ out_dir +:+ "/latency_comparison.png").

End plot_results.

(** ** bench/plot_readme.py *)

Module plot_readme.

Definition read_csv (path : string) : M ref :=
  let* f := open path in
  let* rows := lift (list_DictReader f) in
  new_list rows.

Definition parse (rows : ref) (key : string) : M (list pyfloat) :=
  let* rs := deref rows in
  lift (comprehension (fun r => let? v := getitem r key in float v) rs).

(** [[float(r["mem_rss_kb"])/1024 for r in rows]] *)
Definition mem_rss_mb (rows : ref) : M (list pyfloat) :=
  let* rs := deref rows in
  lift (comprehension (fun r => let? v := getitem r "mem_rss_kb" in
                                let? x := float v in
                                Ok (div_1024 x)) rs).

Definition style_ax (ax : axes) : axes :=
  let ax := call ax (set_facecolor (1, 1, 1, 0.85)%Q) in
  let ax := fold_left (fun ax spine =>
                         let ax := call ax (spine_set_color spine "#586069") in
                         call ax (spine_set_linewidth spine 0.8)) spines ax in
  let ax := call ax (tick_params "#24292e" 10) in
  let ax := call ax (xaxis_label_set_color "#24292e") in
  let ax := call ax (yaxis_label_set_color "#24292e") in
  let ax := call ax (title_set_color "#24292e") in
  call ax (grid true 0.25 (Some "#586069") (Some 0.5%Q)).

(** [plt.close(fig)] only releases the figure from pyplot's registry,
    which is not part of the world. *)
Definition save (fig : figure) (path : string) : M unit :=
  let fig := fig_call_on fig (patch_set_facecolor (1, 1, 1, 0.85)%Q) in
  let* _ := savefig fig path 150 (Some "tight") (Some 0.2%Q) in
  print ("  Saved " +:+ path).

Definition main : M unit :=
  let* v3 := read_csv "bench/scale_results_v3.csv" in
  let* v4 := read_csv "bench/scale_results_v4.csv" in
  let out := "assets/readme" in
  let* _ := makedirs out in
  let* svcs_v3 := parse v3 "services" in
  let* svcs_v4 := parse v4 "services" in
  let colors := [("v3", "#d62728"); ("v4", "#2ca02c")] in
  (* --- 1. Check throughput (the big win) --- *)
  let fig := subplots 1 1 (8, 4.5)%Q in
  let ax := new_axes in
  let ax := style_ax ax in
  let* y := parse v3 "checks_per_sec" in
  let* c := lift (dict_get colors "v3") in
  let* ax := Axes_plot ax svcs_v3 y "o-" "Before (fork per check)" c 2 (Some 6%Q) in
  let* y := parse v4 "checks_per_sec" in
  let* c := lift (dict_get colors "v4") in
  let* ax := Axes_plot ax svcs_v4 y "s-" "After (fork server)" c 2 (Some 6%Q) in
  let ax := call ax (axhline 1667 "#0366d6" "--" 1 0.6 "Target: 100k svcs in 60s") in
  let ax := call ax (set_xscale "log") in
  let ax := call ax (set_title "Check Throughput" (Some 13%Q) (Some "bold")) in
  let ax := call ax (set_xlabel "Number of Services") in
  let ax := call ax (set_ylabel "Checks/sec") in
  let ax := call ax (legend (Some "best") (Some 0.95%Q) (Some 9%Q)) in
  let ax := call ax (xaxis_set_major_formatter (FuncFormatter ",.0f")) in
  let* _ := save (with_axes fig [ax]) (path_join out "check_throughput.png") in
  (* --- 2. Memory usage --- *)
  let fig := subplots 1 1 (8, 4.5)%Q in
  let ax := new_axes in
  let ax := style_ax ax in
  let* mem_v3 := mem_rss_mb v3 in
  let* mem_v4 := mem_rss_mb v4 in
  let* c := lift (dict_get colors "v3") in
  let* ax := Axes_plot ax svcs_v3 mem_v3 "o-" "Before" c 2 (Some 6%Q) in
  let* c := lift (dict_get colors "v4") in
  let* ax := Axes_plot ax svcs_v4 mem_v4 "s-" "After" c 2 (Some 6%Q) in
  let ax := call ax (set_xscale "log") in
  let ax := call ax (set_title "Memory Usage (RSS)" (Some 13%Q) (Some "bold")) in
  let ax := call ax (set_xlabel "Number of Services") in
  let ax := call ax (set_ylabel "MB") in
  let ax := call ax (legend (Some "best") (Some 0.95%Q) (Some 9%Q)) in
  let ax := call ax (xaxis_set_major_formatter (FuncFormatter ",.0f")) in
  let* _ := save (with_axes fig [ax]) (path_join out "memory_usage.png") in
  (* --- 3. Startup time --- *)
  let fig := subplots 1 1 (8, 4.5)%Q in
  let ax := new_axes in
  let ax := style_ax ax in
  let* y := parse v3 "startup_ms" in
  let* c := lift (dict_get colors "v3") in
  let* ax := Axes_plot ax svcs_v3 y "o-" "Before" c 2 (Some 6%Q) in
  let* y := parse v4 "startup_ms" in
  let* c := lift (dict_get colors "v4") in
  let* ax := Axes_plot ax svcs_v4 y "s-" "After" c 2 (Some 6%Q) in
  let ax := call ax (set_xscale "log") in
  let ax := call ax (set_title "Startup Time" (Some 13%Q) (Some "bold")) in
  let ax := call ax (set_xlabel "Number of Services") in
  let ax := call ax (set_ylabel "ms") in
  let ax := call ax (legend (Some "best") (Some 0.95%Q) (Some 9%Q)) in
  let ax := call ax (xaxis_set_major_formatter (FuncFormatter ",.0f")) in
  let* _ := save (with_axes fig [ax]) (path_join out "startup_time.png") in
  (* --- 4. LQL throughput (3-panel) --- *)
  let fig := subplots 1 3 (18, 5)%Q in
  let axs := fig_axes fig in
  let fig := fig_call_on fig
    (suptitle "Livestatus Query Throughput" 14 "bold" (Some "#24292e")) in
  let* axs := for_each (fun '(ax, (key, title)) =>
      let ax := style_ax ax in
      let* y := parse v3 key in
      let* c := lift (dict_get colors "v3") in
      let* ax := Axes_plot ax svcs_v3 y "o-" "Before" c 2 (Some 5%Q) in
      let* y := parse v4 key in
      let* c := lift (dict_get colors "v4") in
      let* ax := Axes_plot ax svcs_v4 y "s-" "After" c 2 (Some 5%Q) in
      let ax := call ax (set_xscale "log") in
      let ax := call ax (set_yscale "log") in
      let ax := call ax (set_title title (Some 12%Q) (Some "bold")) in
      let ax := call ax (set_xlabel "Number of Services") in
      let ax := call ax (set_ylabel "Requests/sec") in
      let ax := call ax (legend (Some "best") (Some 0.95%Q) (Some 9%Q)) in
      let ax := call ax (xaxis_set_major_formatter (FuncFormatter ",.0f")) in
      ret ax)
    (zip axs [("lql_hosts_rps", "Hosts Query");
              ("lql_services_rps", "Services Query");
              ("lql_stats_rps", "Stats Query")]) in
  let fig := with_axes fig axs in
  let* fig := Figure_tight_layout fig (Some (0, 0, 1, 0.93)%Q) in
  let* _ := save fig (path_join out "lql_throughput.png") in
  (* --- 5. LQL latency (2-panel) --- *)
  let fig := subplots 1 2 (14, 5)%Q in
  let axs := fig_axes fig in
  let fig := fig_call_on fig
    (suptitle "Livestatus P95 Latency" 14 "bold" (Some "#24292e")) in
  let* axs := for_each (fun '(ax, (key, title)) =>
      let ax := style_ax ax in
      let* y := parse v3 key in
      let* c := lift (dict_get colors "v3") in
      let* ax := Axes_plot ax svcs_v3 y "o-" "Before" c 2 (Some 6%Q) in
      let* y := parse v4 key in
      let* c := lift (dict_get colors "v4") in
      let* ax := Axes_plot ax svcs_v4 y "s-" "After" c 2 (Some 6%Q) in
      let ax := call ax (set_xscale "log") in
      let ax := call ax (set_yscale "log") in
      let ax := call ax (set_title title (Some 12%Q) (Some "bold")) in
      let ax := call ax (set_xlabel "Number of Services") in
      let ax := call ax (set_ylabel "P95 Latency (ms)") in
      let ax := call ax (legend (Some "best") (Some 0.95%Q) (Some 9%Q)) in
      let ax := call ax (xaxis_set_major_formatter (FuncFormatter ",.0f")) in
      ret ax)
    (zip axs [("lql_hosts_p95_ms", "Hosts Query");
              ("lql_services_p95_ms", "Services Query")]) in
  let fig := with_axes fig axs in
  let* fig := Figure_tight_layout fig (Some (0, 0, 1, 0.93)%Q) in
  let* _ := save fig (path_join out "lql_latency.png") in
  print (String newline "Done! All graphs in assets/readme/").

End plot_readme.

(** ** bench/plot_nrdp.py *)

Module plot_nrdp.

Definition read_csv (path : string) : M ref :=
  let* f := open path in
  let* rows := lift (list_DictReader f) in
  new_list rows.

Definition parse (rows : ref) (key : string) : M (list pyfloat) :=
  let* rs := deref rows in
  lift (comprehension (fun r => let? v := getitem r key in float v) rs).

(** [[float(r["mem_rss_kb"])/1024 for r in rows]] *)
Definition mem_rss_mb (rows : ref) : M (list pyfloat) :=
  let* rs := deref rows in
  lift (comprehension (fun r => let? v := getitem r "mem_rss_kb" in
                                let? x := float v in
                                Ok (div_1024 x)) rs).

Definition style_ax (ax : axes) : axes :=
  let ax := call ax (set_facecolor (1, 1, 1, 0.85)%Q) in
  let ax := fold_left (fun ax spine =>
                         let ax := call ax (spine_set_color spine "#586069") in
                         call ax (spine_set_linewidth spine 0.8)) spines ax in
  let ax := call ax (tick_params "#24292e" 10) in
  let ax := call ax (xaxis_label_set_color "#24292e") in
  let ax := call ax (yaxis_label_set_color "#24292e") in
  let ax := call ax (title_set_color "#24292e") in
  call ax (grid true 0.25 (Some "#586069") (Some 0.5%Q)).

(** [plt.close(fig)] only releases the figure from pyplot's registry,
    which is not part of the world. *)
Definition save (fig : figure) (path : string) : M unit :=
  let fig := fig_call_on fig (patch_set_facecolor (1, 1, 1, 0.85)%Q) in
  let* _ := savefig fig path 150 (Some "tight") (Some 0.2%Q) in
  print ("  Saved " +:+ path).

Definition main : M unit :=
  let* data := read_csv "bench/nrdp_results.csv" in
  let out := "assets/readme" in
  let* _ := makedirs out in
  let* svcs := parse data "unique_services" in
  let color := "#0366d6" in
  (* --- 1. NRDP Ingestion Throughput --- *)
  let fig := subplots 1 1 (8, 4.5)%Q in
  let ax := new_axes in
  let ax := style_ax ax in
  let* y := parse data "results_per_sec" in
  let* ax := Axes_plot ax svcs y "s-" "NRDP ingestion rate" color 2 (Some 7%Q) in
  let ax := call ax (set_xscale "log") in
  let ax := call ax (set_title "NRDP Passive Check Ingestion Throughput"
                               (Some 13%Q) (Some "bold")) in
  let ax := call ax (set_xlabel "Unique Services (dynamic registration)") in
  let ax := call ax (set_ylabel "Results/sec") in
  let ax := call ax (legend (Some "best") (Some 0.95%Q) (Some 9%Q)) in
  let ax := call ax (xaxis_set_major_formatter (FuncFormatter ",.0f")) in
  let* _ := save (with_axes fig [ax]) (path_join out "nrdp_throughput.png") in
  (* --- 2. NRDP P95 Batch Latency --- *)
  let fig := subplots 1 1 (8, 4.5)%Q in
  let ax := new_axes in
  let ax := style_ax ax in
  let* y := parse data "p95_batch_ms" in
  let* ax := Axes_plot ax svcs y "s-" "P95 batch latency" "#d62728" 2 (Some 7%Q) in
  let ax := call ax (set_xscale "log") in
  let ax := call ax (set_title "NRDP P95 Batch Latency" (Some 13%Q) (Some "bold")) in
  let ax := call ax (set_xlabel "Unique Services (dynamic registration)") in
  let ax := call ax (set_ylabel "P95 Latency (ms)") in
  let ax := call ax (legend (Some "best") (Some 0.95%Q) (Some 9%Q)) in
  let ax := call ax (xaxis_set_major_formatter (FuncFormatter ",.0f")) in
  let* _ := save (with_axes fig [ax]) (path_join out "nrdp_latency.png") in
  (* --- 3. Memory after NRDP ingestion --- *)
  let fig := subplots 1 1 (8, 4.5)%Q in
  let ax := new_axes in
  let ax := style_ax ax in
  let* mem_mb := mem_rss_mb data in
  let* ax := Axes_plot ax svcs mem_mb "s-" "RSS after ingestion" "#2ca02c" 2 (Some 7%Q) in
  let ax := call ax (set_xscale "log") in
  let ax := call ax (set_title "Memory After NRDP Dynamic Registration"
                               (Some 13%Q) (Some "bold")) in
  let ax := call ax (set_xlabel "Unique Services (dynamic registration)") in
  let ax := call ax (set_ylabel "MB") in
  let ax := call ax (legend (Some "best") (Some 0.95%Q) (Some 9%Q)) in
  let ax := call ax (xaxis_set_major_formatter (FuncFormatter ",.0f")) in
  let* _ := save (with_axes fig [ax]) (path_join out "nrdp_memory.png") in
  print (String newline "Done! NRDP graphs in assets/readme/").

End plot_nrdp.

(** ** What the statements below speak about *)

(** The comprehension of [parse]: column [key] of the rows, as floats. *)
Definition column (rs : list record) (key : string) : result (list pyfloat) :=
  comprehension (fun r => let? v := getitem r key in float v) rs.

(** The reader raised on some line. *)
Definition has_malformed (items : list reader_item) : bool :=
  existsb (fun i => match i with Malformed => true | Row _ => false end) items.

(** The lines that carry at least one field, in file order. *)
Definition data_lines (items : list reader_item) : list (list string) :=
  omap (fun i => match i with
                 | Row (c :: l) => Some (c :: l)
                 | _ => None
                 end) items.

(** The records of a file: one per data line after the header. *)
Definition records_of (items : list reader_item) : list record :=
  match items with
  | Row fieldnames :: rest => dict_row fieldnames <$> data_lines rest
  | _ => []
  end.

(** A line whose number of fields differs from the header's. *)
Definition differing_fields (items : list reader_item) : bool :=
  match items with
  | Row fieldnames :: rest =>
      existsb (fun l => negb (length l =? length fieldnames)) (data_lines rest)
  | _ => false
  end.

Definition no_header_row (items : list reader_item) : bool :=
  match items with
  | [] => true
  | _ => false
  end.

Definition raises {A} (class : exn -> bool) (r : result A) : bool :=
  match r with
  | Raise e => class e
  | Ok _ => false
  end.

(** ** Example inputs *)

Definition scale_header : list string :=
  ["services"; "checks_per_sec"; "mem_rss_kb"; "startup_ms"; "lql_hosts_rps";
   "lql_services_rps"; "lql_stats_rps"; "lql_hosts_p95_ms"; "lql_services_p95_ms"].

(** Two data rows. *)
Definition scale_two_rows : list reader_item :=
  [Row scale_header;
   Row ["10"; "50"; "20480"; "12"; "900.5"; "800"; "700"; "1.5"; "2.5"];
   Row ["1000"; "3000"; "40960"; "40"; "90"; "80"; "70"; "15"; "25"]].

(** Three data rows and a blank line, with numbers in several notations:
    an exponent, padding with spaces, underscores between digits. *)
Definition scale_three_rows : list reader_item :=
  [Row scale_header;
   Row ["10"; " 500"; "10240"; "6"; "9000"; "8000"; "7000"; "0.5"; "0.75"];
   Row [];
   Row ["1e3"; "3.0E4"; "20480"; "20"; "900"; "800"; "700"; "5"; "7.5"];
   Row ["100_000"; "28000.0 "; "204800"; "200"; "90"; "80"; "70"; "50"; "75"]].

(** U+001F, a control character that [str.strip] removes and [float()]
    does not. *)
Definition unit_separator : string := String (ascii_of_nat 31) "".

(** U+00A0, the no-break space, in UTF-8. *)
Definition no_break_space : string :=
  String (ascii_of_nat 194) (String (ascii_of_nat 160) "").

(** The second data row has an exponent without digits under
    checks_per_sec and a stray control character under mem_rss_kb; the
    third has no number at all under checks_per_sec. *)
Definition scale_not_numeric : list reader_item :=
  [Row scale_header;
   Row ["10"; "500"; "10240"; "6"; "9000"; "8000"; "7000"; "0.5"; "0.75"];
   Row ["1000"; "3e"; "20480" +:+ unit_separator; "20"; "900"; "800"; "700"; "5"; "7.5"];
   Row ["100000"; "n/a"; "204800"; "200"; "90"; "80"; "70"; "50"; "75"]].

(** Numbers as [float()] reads them: an exponent, padding with whitespace,
    underscores between digits, a sign before a bare fraction, Arabic-Indic
    digits after a no-break space, infinity and nan. *)
Definition notation_rows : list reader_item :=
  [Row ["notation"; "value"];
   Row ["exponent"; "1.5e3"];
   Row ["padded"; "  2.5 "];
   Row ["underscores"; "-1_000.25"];
   Row ["fraction"; "+.5E-2"];
   Row ["arabic-indic"; no_break_space +:+ "١٢٣"];
   Row ["infinity"; "-Infinity"];
   Row ["nan"; "NaN"]].

Definition nrdp_rows : list reader_item :=
  [Row ["unique_services"; "results_per_sec"; "p95_batch_ms"; "mem_rss_kb"];
   Row ["100"; "2500"; "3.5"; "30720"];
   Row ["10000"; "2400"; "41"; "61440"]].

(** A short line and a long line under a two-column header. *)
Definition ragged_rows : list reader_item :=
  [Row ["services"; "checks_per_sec"];
   Row ["10"];
   Row ["1000"; "3000"; "surplus"]].

Definition example_files : gmap string file :=
  <["bench/scale_results_v2.csv" := Text scale_two_rows]>
  (<["bench/scale_results_v3.csv" := Text scale_two_rows]>
  (<["bench/scale_results_v4.csv" := Text scale_three_rows]>
  (<["bench/nrdp_results.csv" := Text nrdp_rows]>
  (<["ragged.csv" := Text ragged_rows]>
  (<["empty.csv" := Text []]>
  (<["header_only.csv" := Text [Row scale_header]]>
  (<["not_numeric.csv" := Text scale_not_numeric]>
  (<["notation.csv" := Text notation_rows]> empty)))))))).

(** The input of plot_readme.py with a second file that has cells that are
    not numbers. *)
Definition not_numeric_files : gmap string file :=
  <["bench/scale_results_v4.csv" := Text scale_not_numeric]> example_files.

(** A backend that draws the figure it is given, as matplotlib does with
    the figures of the example files, whose data are positive numbers. *)
Definition draws : backend := Backend (fun _ _ => None) (fun _ => None).


(** ** Reading a run *)

Definition str_is (o : option string) (s : string) : bool :=
  match o with
  | Some x => String.eqb x s
  | None => false
  end.

Definition unset {A} (o : option A) : bool :=
  match o with
  | None => true
  | Some _ => false
  end.

Definition rgba_eqb (a b : rgba) : bool :=
  let '(r1, g1, b1, a1) := a in
  let '(r2, g2, b2, a2) := b in
  Qeq_bool r1 r2 && Qeq_bool g1 g2 && Qeq_bool b1 b2 && Qeq_bool a1 a2.

(** [needle in hay] *)
Fixpoint contains (needle hay : string) : bool :=
  String.prefix needle hay ||
  match hay with
  | String _ hay' => contains needle hay'
  | EmptyString => false
  end.

(** [P] holds of every panel of every image written. *)
Definition all_panels (P : figure -> axes -> bool) (w : world) : bool :=
  forallb (fun img => forallb (P (img_figure img)) (fig_axes (img_figure img))) (images w).

(** Every series of every image written, in drawing order. *)
Definition all_series (w : world) : list series :=
  flat_map (fun img => flat_map series_of (fig_axes (img_figure img))) (images w).

(** Tick labels of the x axis are formatted with a thousands separator. *)
Definition thousands_separated (ax : axes) : bool :=
  match major_formatter ax with
  | Some (FuncFormatter spec) => String.eqb spec ",.0f"
  | None => false
  end.

(** The theme: translucent white background, dark-gray labels, ticks and
    title, mid-gray spines and grid, low-alpha grid, thousands separators. *)
Definition themed (ax : axes) : bool :=
  match facecolor ax with
  | Some c => rgba_eqb c (1, 1, 1, 0.85)%Q
  | None => false
  end
  && str_is (tick_color ax) "#24292e"
  && str_is (xlabel_color ax) "#24292e"
  && str_is (ylabel_color ax) "#24292e"
  && str_is (title_color ax) "#24292e"
  && forallb (fun spine => str_is (spine_color spine ax) "#586069") spines
  && match grid_style ax with
     | Some (true, alpha, Some color) => Qle_bool alpha 0.3 && String.eqb color "#586069"
     | _ => false
     end
  && thousands_separated ax.

Definition grid_alpha_is (alpha : Q) (ax : axes) : bool :=
  match grid_style ax with
  | Some (_, a, _) => Qeq_bool a alpha
  | None => false
  end.

(** What a panel of plot_results.py gets instead: a grid of alpha 0.3 in the
    default colour and thousands separators; background, label, tick, title
    and spine colours are left at matplotlib's defaults. *)
Definition default_colours_grid (ax : axes) : bool :=
  unset (facecolor ax)
  && unset (tick_color ax)
  && unset (xlabel_color ax)
  && unset (ylabel_color ax)
  && unset (title_color ax)
  && forallb (fun spine => unset (spine_color spine ax)) spines
  && match grid_style ax with
     | Some (true, alpha, None) => Qeq_bool alpha 0.3
     | _ => false
     end
  && thousands_separated ax.

(** A throughput (requests per second) or latency panel, told by its
    y label, its title or the title of its figure. *)
Definition rps_or_latency (fig : figure) (ax : axes) : bool :=
  String.eqb (ylabel_of ax) "Requests/sec"
  || contains "Latency" (title_of ax)
  || contains "Latency" (ylabel_of ax)
  || contains "Latency" (suptitle_of fig).

(** Logarithmic x; logarithmic y exactly on the RPS and latency panels. *)
Definition scales_as_claimed (fig : figure) (ax : axes) : bool :=
  String.eqb (xscale ax) "log"
  && Bool.eqb (String.eqb (yscale ax) "log") (rps_or_latency fig ax).

(** Logarithmic x; y logarithmic on the RPS and latency panels and linear on
    the others. *)
Definition log_x_and_y_by_kind (fig : figure) (ax : axes) : bool :=
  String.eqb (xscale ax) "log"
  && String.eqb (yscale ax) (if rps_or_latency fig ax then "log" else "linear").

Definition log_x_linear_y (fig : figure) (ax : axes) : bool :=
  String.eqb (xscale ax) "log" && String.eqb (yscale ax) "linear".

Definition opt_str_eqb (a b : option string) : bool :=
  match a, b with
  | Some x, Some y => String.eqb x y
  | None, None => true
  | _, _ => false
  end.

Definition opt_Q_eqb (a b : option Q) : bool :=
  match a, b with
  | Some x, Some y => Qeq_bool x y
  | None, None => true
  | _, _ => false
  end.

(** An image written at DPI 150 with the given cropping. *)
Definition emitted_with (bbox : option string) (pad : option Q) (img : image) : bool :=
  (img_dpi img =? 150)
  && opt_str_eqb (img_bbox_inches img) bbox
  && opt_Q_eqb (img_pad_inches img) pad.

(** The console lines that report the images, one each. *)
Definition saved_lines (indent : string) (imgs : list image) : list string :=
  map (fun img => indent +:+ "Saved " +:+ img_path img) imgs.

(** The images written, in order: the path of each and the titles of the
    panels of its figure. *)
Definition written (w : world) : list (string * list string) :=
  map (fun img => (img_path img, map title_of (fig_axes (img_figure img)))) (images w).

(** The charts of the three scripts, as they call them. *)
Definition results_charts : list (string * list string) :=
  [("bench/graphs/scale_comparison.png",
    ["Check Throughput"; "Memory Usage (RSS)"; "Startup Time";
     "LQL Services Query RPS"; "LQL Hosts Query RPS"; "LQL Stats Query RPS"]);
   ("bench/graphs/latency_comparison.png",
    ["Hosts Query P95 Latency"; "Services Query P95 Latency"])].

Definition readme_charts : list (string * list string) :=
  [("assets/readme/check_throughput.png", ["Check Throughput"]);
   ("assets/readme/memory_usage.png", ["Memory Usage (RSS)"]);
   ("assets/readme/startup_time.png", ["Startup Time"]);
   ("assets/readme/lql_throughput.png", ["Hosts Query"; "Services Query"; "Stats Query"]);
   ("assets/readme/lql_latency.png", ["Hosts Query"; "Services Query"])].

Definition nrdp_charts : list (string * list string) :=
  [("assets/readme/nrdp_throughput.png", ["NRDP Passive Check Ingestion Throughput"]);
   ("assets/readme/nrdp_latency.png", ["NRDP P95 Batch Latency"]);
   ("assets/readme/nrdp_memory.png", ["Memory After NRDP Dynamic Registration"])].

(** What one call of [save] does to the world [w]: it succeeds exactly when
    the backend renders the figure and the directory of [path] exists; it
    then adds one image, the caller's figure with its translucent white
    patch, at the caller's path, at DPI 150 and cropped to the tight
    bounding box with padding 0.2, and prints the line that reports the
    path; when it fails it adds and prints nothing. *)
Definition saves (fig : figure) (path : string) (w : world) (r : result unit) (w' : world)
  : Prop :=
  let img := Image path 150 (Some "tight") (Some 0.2%Q)
                   (fig_call_on fig (patch_set_facecolor (1, 1, 1, 0.85)%Q)) in
  (r = Ok tt <->
   print_figure_error (agg w) img = None /\ dir_exists (dirs w) (dirname path) = true) /\
  match r with
  | Ok _ =>
      images w' = images w ++ [img] /\
      stdout w' = stdout w ++ lines_from "" ("  Saved " +:+ path) /\
      files w' = files w /\ dirs w' = dirs w /\ heap w' = heap w /\ agg w' = agg w
  | Raise e =>
      w' = w /\
      match print_figure_error (agg w) img with
      | Some msg => e = ValueError_draw msg
      | None => e = FileNotFoundError path
      end
  end.

(** What a run emits: every image at DPI 150 with the cropping [bbox],
    [pad], into a directory that exists; the images are the first charts of
    the script, each at its path with its panels, and all of them when the
    script ran to its end; on the console one "Saved" line per image,
    followed by the lines [done] when the script ran to its end; and a
    missing file, when reported, is one of the input files. *)
Definition emits (fs : gmap string file) (indent : string) (bbox : option string)
    (pad : option Q) (charts : list (string * list string)) (done : list string)
    (r : result unit) (w : world) : Prop :=
  forallb (emitted_with bbox pad) (images w) = true /\
  Forall (fun img => dir_exists (dirs w) (dirname (img_path img)) = true) (images w) /\
  written w = take (length (images w)) charts /\
  match r with Ok _ => written w = charts | Raise _ => True end /\
  stdout w = saved_lines indent (images w)
             ++ match r with Ok _ => done | Raise _ => [] end /\
  (forall p, r = Raise (FileNotFoundError p) -> fs !! p = None).

(** Lines and images pair up, each line naming the path of its image. *)
Fixpoint one_line_per_image (lines : list string) (imgs : list image) : bool :=
  match lines, imgs with
  | [], [] => true
  | l :: lines', i :: imgs' => contains (img_path i) l && one_line_per_image lines' imgs'
  | _, _ => false
  end.

(** Emit as the design document words it: DPI 150, padded tight cropping,
    the directory in place, one console line per image and no other. *)
Definition emit_as_claimed (w : world) : bool :=
  forallb (fun img => (img_dpi img =? 150)
                      && str_is (img_bbox_inches img) "tight"
                      && negb (unset (img_pad_inches img))
                      && dir_exists (dirs w) (dirname (img_path img))) (images w)
  && one_line_per_image (stdout w) (images w).

(** The errors that reading a cell as a float can raise. *)
Definition data_error (e : exn) : bool :=
  match e with
  | KeyError _ | TypeError | ValueError _ => true
  | _ => false
  end.

(** The styling of the two compared runs, keyed by the label of the series:
    labels that start with "Before" are drawn red with round markers, labels
    that start with "After" green with square markers. *)
Definition before_after_style (s : series) : bool :=
  if String.prefix "Before" (s_label s)
  then String.eqb (s_color s) "#d62728" && String.eqb (s_fmt s) "o-"
  else if String.prefix "After" (s_label s)
  then String.eqb (s_color s) "#2ca02c" && String.eqb (s_fmt s) "s-"
  else false.

(** A cell that [float] does not accept, under column [c]. *)
Definition not_numeric (c : string) (r : record) : Prop :=
  exists cell e, r !! Some c = Some cell /\ float cell = Raise e.

(** [wp m Q w]: running [m] in the world [w] ends with a result and a world
    that satisfy [Q]. *)
Definition wp {A} (m : M A) (Q : result A -> world -> Prop) (w : world) : Prop :=
  Q (m w).1 (m w).2.

(** A dataset as some input file loads. *)
Definition loaded_from (fs : gmap string file) (rs : list record) : Prop :=
  exists path items, fs !! path = Some (Text items) /\ list_DictReader items = Ok rs.


(** Whether projecting column [c] of the rows succeeds. *)
Definition numeric (rs : list record) (c : string) : bool :=
  match column rs c with
  | Ok _ => true
  | Raise _ => false
  end.



(** * Properties *)

(** ** [float] on text *)

Example float_examples :
  float (CStr "3000") = Ok (Finite false 3000 0) /\
  float (CStr " -1_000.25e+2 ") = Ok (Finite true 100025 0) /\
  float (CStr "Infinity") = Ok (Infinity false) /\
  float (CStr "1.e5") = Ok (Finite false 1 5) /\
  float (CStr "10.5E-3") = Ok (Finite false 105 (-4)) /\
  float (CStr "1e") = Raise (ValueError "1e") /\
  float (CStr "1,000") = Raise (ValueError "1,000") /\
  float (CStr "") = Raise (ValueError "") /\
  float (CStr "n/a") = Raise (ValueError "n/a") /\
  float CNone = Raise TypeError.
Proof. vm_compute. repeat split. Qed.

(** Whitespace and digits beyond ASCII are read as Python reads them: a
    no-break space is stripped and Arabic-Indic or fullwidth digits count,
    while the separators U+001C to U+001F are not whitespace to [float()],
    and a superscript two is no decimal digit. *)
Example float_unicode_examples :
  float (CStr (no_break_space +:+ "5")) = Ok (Finite false 5 0) /\
  float (CStr "١٢٣") = Ok (Finite false 123 0) /\
  float (CStr "４.５") = Ok (Finite false 45 (-1)) /\
  float (CStr "٣e٢") = Ok (Finite false 3 2) /\
  float (CStr ("7" +:+ unit_separator)) = Raise (ValueError ("7" +:+ unit_separator)) /\
  float (CStr (String (ascii_of_nat 28) "5")) = Raise (ValueError (String (ascii_of_nat 28) "5")) /\
  float (CStr "²") = Raise (ValueError "²") /\
  float (CStr "1é") = Raise (ValueError "1é").
Proof. vm_compute. repeat split. Qed.

Example tick_label_examples :
  tick_label (FuncFormatter ",.0f") (Finite false 1000 0) = Some "1,000" /\
  tick_label (FuncFormatter ",.0f") (Finite false 1 5) = Some "100,000" /\
  tick_label (FuncFormatter ",.0f") (Finite false 12345675 (-1)) = Some "1,234,568" /\
  tick_label (FuncFormatter ",.0f") (Finite false 25 (-1)) = Some "2" /\
  tick_label (FuncFormatter ",.0f") (Finite false 35 (-1)) = Some "4" /\
  tick_label (FuncFormatter ",.0f") (Finite true 999 0) = Some "-999" /\
  tick_label (FuncFormatter ",.0f") (Finite false 0 0) = Some "0".
Proof. vm_compute. repeat split. Qed.

(** ** List comprehensions *)

Lemma comprehension_from_Ok {A B} (f : A -> result B) rows : forall acc ys,
  comprehension_from f acc rows = Ok ys <->
  exists ys', ys = acc ++ ys' /\ Forall2 (fun r y => f r = Ok y) rows ys'.
Proof.
  induction rows as [|r rows IH]; intros acc ys; simpl.
  - split.
    + intros [= <-]. exists []. split; [by rewrite app_nil_r | constructor].
    + intros (ys' & -> & H). inversion H. by rewrite app_nil_r.
  - destruct (f r) as [v|e] eqn:Hr.
    + rewrite IH. split.
      * intros (ys' & -> & H). exists (v :: ys'). split; [by rewrite <- app_assoc | by constructor].
      * intros (ys' & -> & H). inversion H as [|? y ? ys'' Hy Hrest]; subst.
        assert (y = v) as -> by congruence.
        exists ys''. split; [by rewrite <- app_assoc | done].
    + split; [done|]. intros (ys' & _ & H). inversion H; congruence.
Qed.

Lemma comprehension_Ok {A B} (f : A -> result B) rows ys :
  comprehension f rows = Ok ys <-> Forall2 (fun r y => f r = Ok y) rows ys.
Proof.
  unfold comprehension. rewrite comprehension_from_Ok. split.
  - by intros (ys' & -> & H).
  - intros H. by exists ys.
Qed.

Lemma comprehension_from_Raise {A B} (f : A -> result B) rows : forall acc e,
  comprehension_from f acc rows = Raise e <->
  exists pre r post, rows = pre ++ r :: post /\
                     Forall (fun r' => exists y, f r' = Ok y) pre /\ f r = Raise e.
Proof.
  induction rows as [|r rows IH]; intros acc e; simpl.
  - split; [done|]. intros (pre & r & post & H & _). by destruct pre.
  - destruct (f r) as [v|e'] eqn:Hr.
    + rewrite IH. split.
      * intros (pre & r' & post & -> & Hpre & Hr'). exists (r :: pre), r', post.
        split; [done|]. split; [constructor; eauto | done].
      * intros (pre & r' & post & Heq & Hpre & Hr'). destruct pre as [|p pre].
        -- simpl in Heq. injection Heq as <- <-. congruence.
        -- simpl in Heq. injection Heq as <- ->. inversion Hpre; subst.
           exists pre, r', post. done.
    + split.
      * intros [= <-]. exists [], r, rows. split; [done|]. split; [constructor | done].
      * intros (pre & r' & post & Heq & Hpre & Hr'). destruct pre as [|p pre].
        -- simpl in Heq. injection Heq as <- <-. congruence.
        -- simpl in Heq. injection Heq as <- ->. inversion Hpre as [|? ? [y Hy] ?]; subst.
           congruence.
Qed.

Lemma comprehension_Raise_at {A B} (f : A -> result B) rows e :
  comprehension f rows = Raise e -> exists r, r ∈ rows /\ f r = Raise e.
Proof.
  intros (pre & r & post & -> & _ & Hr)%comprehension_from_Raise.
  exists r. split; [|done]. rewrite elem_of_app, elem_of_cons. auto.
Qed.

Lemma comprehension_length {A B} (f : A -> result B) rows ys :
  comprehension f rows = Ok ys -> length ys = length rows.
Proof. rewrite comprehension_Ok. intros H. symmetry. by eapply Forall2_length. Qed.

(** ** Row dicts *)

Lemma py_dict_snoc kvs kv : py_dict (kvs ++ [kv]) = <[kv.1 := kv.2]> (py_dict kvs).
Proof. unfold py_dict. by rewrite foldl_app. Qed.

Lemma py_dict_is_Some kvs (k : option string) :
  is_Some (py_dict kvs !! k) <-> k ∈ kvs.*1.
Proof.
  induction kvs as [|kv kvs IH] using rev_ind.
  - unfold py_dict; simpl. rewrite lookup_empty. split; [by intros [? ?] | by intros ?%elem_of_nil].
  - rewrite py_dict_snoc, fmap_app, elem_of_app. simpl. rewrite list_elem_of_singleton.
    destruct (decide (kv.1 = k)) as [->|Hne].
    + rewrite lookup_insert_eq. split; eauto.
    + rewrite lookup_insert_ne by done. rewrite IH. split; [eauto | intros [?|?]; congruence].
Qed.

Lemma pad_is_Some (keys : list string) (d : record) (k : option string) :
  is_Some (foldl (fun d key => <[Some key := CNone]> d) d keys !! k) <->
  is_Some (d !! k) \/ k ∈ Some <$> keys.
Proof.
  revert d. induction keys as [|key keys IH]; intros d; simpl.
  - rewrite elem_of_nil. tauto.
  - rewrite IH, elem_of_cons. destruct (decide (Some key = k)) as [<-|Hne].
    + rewrite lookup_insert_eq. split; eauto.
    + rewrite lookup_insert_ne by done. split; [tauto | intros [?|[?|?]]; [tauto | congruence | tauto]].
Qed.

(** A row dict has a cell for exactly the names of the header: the surplus
    of a long row goes under [None], a short row is padded with [None]
    cells. *)
Lemma dict_row_is_Some fieldnames row (c : string) :
  is_Some (dict_row fieldnames row !! Some c) <-> c ∈ fieldnames.
Proof.
  unfold dict_row.
  assert (Hfst : (zip (Some <$> fieldnames) (CStr <$> row)).*1
                 = Some <$> take (length row) fieldnames).
  { revert row. induction fieldnames as [|f fs IH]; intros [|x row]; simpl; try done.
    by rewrite IH. }
  assert (Hin : forall l : list string, Some c ∈ Some <$> l <-> c ∈ l).
  { intros l. rewrite list_elem_of_fmap. split; [by intros (? & [= <-] & ?) | eauto]. }
  destruct (length fieldnames <? length row) eqn:H1; [|destruct (length row <? length fieldnames) eqn:H2].
  - apply Nat.ltb_lt in H1. rewrite lookup_insert_ne by done.
    rewrite py_dict_is_Some, Hfst, Hin, take_ge by lia. done.
  - rewrite pad_is_Some, py_dict_is_Some, Hfst, !Hin.
    rewrite <- elem_of_app, take_drop. done.
  - apply Nat.ltb_ge in H1. apply Nat.ltb_ge in H2.
    rewrite py_dict_is_Some, Hfst, Hin, take_ge by lia. done.
Qed.

(** With a header free of duplicates and a line of the header's length, the
    cell of a column is the field at the column's position. *)
Lemma dict_row_field fieldnames row (j : nat) (c : string) :
  NoDup fieldnames -> length row = length fieldnames -> fieldnames !! j = Some c ->
  dict_row fieldnames row !! Some c = CStr <$> row !! j.
Proof.
  intros Hnd Hlen Hj. unfold dict_row.
  rewrite Hlen, Nat.ltb_irrefl.
  revert j Hj. revert row Hlen.
  induction fieldnames as [|f fs IH] using rev_ind; intros row Hlen j Hj; [done|].
  destruct row as [|x row' _] using rev_ind; [rewrite length_app in Hlen; simpl in Hlen; lia|].
  rewrite !length_app in Hlen. simpl in Hlen.
  rewrite !fmap_app. simpl. rewrite zip_with_app by (rewrite !length_fmap; lia).
  simpl. rewrite py_dict_snoc. simpl.
  apply NoDup_app in Hnd as (Hnd & Hnot & _).
  destruct (decide (j = length fs)) as [->|Hne].
  - rewrite list_lookup_middle in Hj by done. injection Hj as ->.
    rewrite lookup_insert_eq. replace (length fs) with (length row') by lia.
    by rewrite list_lookup_middle.
  - assert (j < length fs).
    { apply lookup_lt_Some in Hj. rewrite length_app in Hj. simpl in Hj. lia. }
    rewrite lookup_app_l in Hj by done.
    rewrite lookup_insert_ne.
    + rewrite lookup_app_l by lia. apply IH; [done | lia | done].
    + intros [= ->]. apply (Hnot c); [by eapply list_elem_of_lookup_2 | by apply list_elem_of_singleton].
Qed.

(** ** Loading *)

Lemma DictReader_rows_spec fieldnames items :
  DictReader_rows fieldnames items =
  if has_malformed items then Raise csv_Error
  else Ok (dict_row fieldnames <$> data_lines items).
Proof.
  induction items as [|[[|c l]|] items IH]; simpl; try done.
  rewrite IH. by destruct (has_malformed items).
Qed.

Lemma list_DictReader_spec items :
  list_DictReader items =
  if has_malformed items then Raise csv_Error else Ok (records_of items).
Proof.
  destruct items as [|[fieldnames|] rest]; simpl; try done.
  apply DictReader_rows_spec.
Qed.

(** Every record of a loaded dataset has a cell for exactly the names of the
    header. *)
Lemma records_of_keys items r (c : string) :
  r ∈ records_of items ->
  is_Some (r !! Some c) <-> exists fieldnames rest, items = Row fieldnames :: rest /\ c ∈ fieldnames.
Proof.
  destruct items as [|[fieldnames|] rest]; simpl; try by intros ?%elem_of_nil.
  intros (row & -> & _)%list_elem_of_fmap. rewrite dict_row_is_Some. split.
  - eauto.
  - by intros (? & ? & [= <- <-] & ?).
Qed.

Lemma heap_lookup_new {A} (h : list A) x : (h ++ [x]) !! length h = Some x.
Proof. by apply list_lookup_middle. Qed.

Lemma read_csv_eq path w :
  plot_results.read_csv path w =
  match files w !! path with
  | None => (Raise (FileNotFoundError path), w)
  | Some Unreadable => (Raise (PermissionError path), w)
  | Some (Text items) =>
      if has_malformed items then (Raise csv_Error, w)
      else (Ok (length (heap w)),
            World (files w) (dirs w) (agg w) (heap w ++ [records_of items]) (images w) (stdout w))
  end.
Proof.
  unfold plot_results.read_csv, bind, open, lift, new_list.
  destruct (files w !! path) as [[|items]|]; try done.
  rewrite list_DictReader_spec. by destruct (has_malformed items).
Qed.

Lemma parse_eq (v : ref) key w :
  plot_results.parse v key w =
  match heap w !! v with
  | Some rs => (column rs key, w)
  | None => (Raise SystemError, w)
  end.
Proof.
  unfold plot_results.parse, bind, deref, lift, column.
  destruct (heap w !! v); [|done]. by destruct (comprehension _ _).
Qed.

(** The three scripts define the same loader and the same projection. *)
Lemma read_csv_same :
  plot_readme.read_csv = plot_results.read_csv /\ plot_nrdp.read_csv = plot_results.read_csv.
Proof. split; reflexivity. Qed.

Lemma parse_same :
  plot_readme.parse = plot_results.parse /\ plot_nrdp.parse = plot_results.parse.
Proof. split; reflexivity. Qed.

Lemma cell_float_Ok (r : record) key y :
  (let? v := getitem r key in float v) = Ok y <->
  exists cell, r !! Some key = Some cell /\ float cell = Ok y.
Proof.
  unfold getitem, rbind. destruct (r !! Some key) as [cell|].
  - split; [eauto | by intros (? & [= <-] & ?)].
  - split; [done | by intros (? & ? & ?)].
Qed.

Lemma column_Ok rs key ys :
  column rs key = Ok ys <->
  Forall2 (fun r y => exists cell, r !! Some key = Some cell /\ float cell = Ok y) rs ys.
Proof.
  unfold column. rewrite comprehension_Ok.
  split; intros H; (eapply Forall2_impl; [exact H|]); intros r y; by rewrite cell_float_Ok.
Qed.

Lemma column_length rs key ys : column rs key = Ok ys -> length ys = length rs.
Proof. apply comprehension_length. Qed.

(** On a loaded dataset whose header has the column, only [float] can make
    the projection fail. *)
Lemma column_Raise_conversion items rs (c : string) e :
  list_DictReader items = Ok rs ->
  (exists r, r ∈ rs /\ is_Some (r !! Some c)) ->
  column rs c = Raise e ->
  ConversionError e = true /\
  exists pre r post cell,
    rs = pre ++ r :: post /\
    Forall (fun r' => exists cell' y, r' !! Some c = Some cell' /\ float cell' = Ok y) pre /\
    r !! Some c = Some cell /\ float cell = Raise e.
Proof.
  rewrite list_DictReader_spec. destruct (has_malformed items); [done|].
  intros [= <-] (r0 & Hr0 & Hc0) Hraise.
  pose proof (proj1 (records_of_keys _ _ c Hr0) Hc0) as Hhdr.
  apply comprehension_from_Raise in Hraise as (pre & r & post & Heq & Hpre & Hr).
  assert (Hin : r ∈ records_of items) by (rewrite Heq, elem_of_app, elem_of_cons; auto).
  destruct (proj2 (records_of_keys _ _ c Hin) Hhdr) as [cell Hcell].
  unfold getitem, rbind in Hr. rewrite Hcell in Hr.
  split.
  - destruct cell as [s| |l]; simpl in Hr; [destruct (float_of_string s)|..]; by inversion Hr.
  - exists pre, r, post, cell. repeat split; try done.
    eapply Forall_impl; [exact Hpre|]. intros r' [y Hy].
    apply cell_float_Ok in Hy as (cell' & ? & ?). eauto.
Qed.

Lemma list_DictReader_header fieldnames rest :
  has_malformed rest = false ->
  list_DictReader (Row fieldnames :: rest) = Ok (dict_row fieldnames <$> data_lines rest).
Proof. intros H. rewrite list_DictReader_spec. simpl. by rewrite H. Qed.

Lemma column_Ok_numeric rs c ys :
  column rs c = Ok ys -> ~ Exists (not_numeric c) rs.
Proof.
  intros Hcol (r & Hr & cell & e & Hcell & He)%Exists_exists.
  apply column_Ok in Hcol. apply list_elem_of_lookup in Hr as [i Hi].
  destruct (Forall2_lookup_l _ _ _ _ _ Hcol Hi) as (y & _ & cell' & Hcell' & Hy).
  congruence.
Qed.

(** ** The Dataset Loader *)

(** C1, as the code has it: a file that loads (a header line, then lines
    the tokenizer accepts) gives one record per data line, in file order,
    and when the header has the column [c] every record has a cell for [c]:
    the field of its line, or [None] when the line stops short of the
    column.  [parse] returns [ys] exactly when [ys] lists, record by record,
    the float of that record's cell.  When every cell is text that [float]
    accepts it returns such a series, with one value per data row; when some
    cell is not, it raises what [float] raised on the first such cell, a
    ConversionError, and returns nothing. *)
Theorem parse_projects_column (w : world) (path : string) (fieldnames : list string)
    (rest : list reader_item) (c : string) :
  files w !! path = Some (Text (Row fieldnames :: rest)) ->
  has_malformed rest = false ->
  c ∈ fieldnames ->
  exists (v : ref) (w' : world) (rs : list record),
    plot_results.read_csv path w = (Ok v, w') /\
    heap w' !! v = Some rs /\
    rs = dict_row fieldnames <$> data_lines rest /\
    Forall (fun r => is_Some (r !! Some c)) rs /\
    (forall ys,
        plot_results.parse v c w' = (Ok ys, w') <->
        Forall2 (fun r y => exists cell, r !! Some c = Some cell /\ float cell = Ok y) rs ys) /\
    (Forall (fun r => exists cell y, r !! Some c = Some cell /\ float cell = Ok y) rs ->
     exists ys, plot_results.parse v c w' = (Ok ys, w') /\
                length ys = length (data_lines rest)) /\
    (Exists (not_numeric c) rs ->
     exists e pre r post cell,
       plot_results.parse v c w' = (Raise e, w') /\
       ConversionError e = true /\
       rs = pre ++ r :: post /\
       Forall (fun r' => exists cell' y, r' !! Some c = Some cell' /\ float cell' = Ok y) pre /\
       r !! Some c = Some cell /\ float cell = Raise e) /\
    (forall ys w'',
        plot_results.parse v c w' = (Ok ys, w'') ->
        length ys = length (data_lines rest) /\
        forall i r, rs !! i = Some r ->
                    exists cell y, r !! Some c = Some cell /\ float cell = Ok y /\ ys !! i = Some y).
Proof.
  intros Hfile Hmal Hc.
  eexists _, _, _. rewrite read_csv_eq, Hfile. simpl. rewrite Hmal.
  split; [reflexivity|]. simpl.
  split; [apply heap_lookup_new|]. split; [reflexivity|].
  assert (Hcells : Forall (fun r : record => is_Some (r !! Some c))
                          (dict_row fieldnames <$> data_lines rest)).
  { apply Forall_fmap, Forall_forall. intros row _. simpl. by apply dict_row_is_Some. }
  split; [exact Hcells|].
  split.
  { intros ys. rewrite parse_eq. simpl. rewrite heap_lookup_new.
    rewrite <- column_Ok. split; [by intros [= ->] | by intros ->]. }
  split; [|split].
  - intros Hnum. rewrite parse_eq. simpl. rewrite heap_lookup_new.
    destruct (column _ c) as [ys|e] eqn:Hcol.
    + exists ys. split; [done|]. apply column_length in Hcol. by rewrite Hcol, length_fmap.
    + exfalso. apply comprehension_Raise_at in Hcol as (r & Hr & He).
      apply (proj1 (Forall_forall _ _) Hnum) in Hr as (cell & y & Hcell & Hy).
      unfold getitem, rbind in He. rewrite Hcell in He. congruence.
  - intros Hbad. rewrite parse_eq. simpl. rewrite heap_lookup_new.
    destruct (column _ c) as [ys|e] eqn:Hcol.
    + exfalso. by eapply column_Ok_numeric.
    + assert (Hload : list_DictReader (Row fieldnames :: rest)
                      = Ok (dict_row fieldnames <$> data_lines rest))
        by (by apply list_DictReader_header).
      destruct (column_Raise_conversion _ _ c e Hload) as (Hconv & pre & r & post & cell & H);
        [|exact Hcol|].
      * apply Exists_exists in Hbad as (r0 & Hr0 & _). exists r0. split; [done|].
        by apply (proj1 (Forall_forall _ _) Hcells).
      * exists e, pre, r, post, cell. destruct H as (? & ? & ? & ?). done.
  - intros ys w''. rewrite parse_eq. simpl. rewrite heap_lookup_new.
    intros [= Hcol <-]. split.
    + apply column_length in Hcol. by rewrite Hcol, length_fmap.
    + apply column_Ok in Hcol. intros i r Hi.
      destruct (Forall2_lookup_l _ _ _ _ _ Hcol Hi) as (y & Hy & cell & ? & ?). eauto.
Qed.

(** C2: on a loaded dataset, when some cell of the queried column is not
    accepted by [float], [parse] raises a [ConversionError] -- the one
    [float] raised on the first such cell -- returns no list, and leaves the
    world as it was. *)
Theorem parse_non_numeric_raises (w : world) (v : ref) (items : list reader_item)
    (rs : list record) (c : string) :
  list_DictReader items = Ok rs ->
  heap w !! v = Some rs ->
  Exists (fun r => exists cell e, r !! Some c = Some cell /\ float cell = Raise e) rs ->
  exists e,
    plot_results.parse v c w = (Raise e, w) /\
    ConversionError e = true /\
    exists pre r post cell,
      rs = pre ++ r :: post /\
      Forall (fun r' => exists cell' y, r' !! Some c = Some cell' /\ float cell' = Ok y) pre /\
      r !! Some c = Some cell /\ float cell = Raise e.
Proof.
  intros Hload Hheap Hbad.
  rewrite parse_eq, Hheap.
  apply Exists_exists in Hbad as (r0 & Hr0 & cell0 & e0 & Hcell0 & He0).
  destruct (column rs c) as [ys|e] eqn:Hcol.
  - exfalso. apply column_Ok in Hcol.
    apply list_elem_of_lookup in Hr0 as [i Hi].
    destruct (Forall2_lookup_l _ _ _ _ _ Hcol Hi) as (y & _ & cell & Hcell & Hy).
    congruence.
  - exists e. split; [done|].
    eapply column_Raise_conversion; eauto.
Qed.

Lemma parse_projects_column_witness :
  files (start example_files [] draws) !! "notation.csv"
    = Some (Text (Row ["notation"; "value"] :: tail notation_rows)) /\
  has_malformed (tail notation_rows) = false /\
  "value" ∈ ["notation"; "value"] /\
  exists v w',
    plot_results.read_csv "notation.csv" (start example_files [] draws) = (Ok v, w') /\
    plot_results.parse v "value" w'
      = (Ok [Finite false 15 2; Finite false 25 (-1); Finite true 100025 (-2);
             Finite false 5 (-3); Finite false 123 0; Infinity true; NaN], w').
Proof.
  assert (H1 : files (start example_files [] draws) !! "notation.csv"
               = Some (Text (Row ["notation"; "value"] :: tail notation_rows)))
    by (vm_compute; reflexivity).
  assert (H2 : has_malformed (tail notation_rows) = false) by reflexivity.
  assert (H3 : "value" ∈ ["notation"; "value"]) by (repeat constructor).
  repeat split; try assumption.
  destruct (parse_projects_column _ _ _ _ _ H1 H2 H3)
    as (v & w' & rs & Hload & _ & -> & _ & Hparse & _ & _).
  exists v, w'. split; [exact Hload|].
  apply Hparse.
  repeat constructor; eexists; (split; [vm_compute; reflexivity | vm_compute; reflexivity]).
Defined.

(** C1 as stated fails.  The header of ragged.csv has the column
    checks_per_sec and the file loads into two records, yet projecting the
    column returns no sequence: the first line stops short of the column,
    its cell is [None], and [float(None)] raises TypeError.  Every line of
    not_numeric.csv has a field under checks_per_sec, and the projection
    raises ValueError on the second of the three rows. *)
Lemma parse_column_raises :
  (files (start example_files [] draws) !! "ragged.csv"
     = Some (Text (Row ["services"; "checks_per_sec"] :: tail ragged_rows)) /\
   (plot_results.read_csv "ragged.csv" (start example_files [] draws)).1 = Ok 0 /\
   length <$> heap (plot_results.read_csv "ragged.csv" (start example_files [] draws)).2 !! 0
     = Some 2 /\
   (plot_results.parse 0 "checks_per_sec"
      (plot_results.read_csv "ragged.csv" (start example_files [] draws)).2).1
     = Raise TypeError) /\
  (files (start example_files [] draws) !! "not_numeric.csv"
     = Some (Text (Row scale_header :: tail scale_not_numeric)) /\
   (plot_results.read_csv "not_numeric.csv" (start example_files [] draws)).1 = Ok 0 /\
   length <$> heap (plot_results.read_csv "not_numeric.csv" (start example_files [] draws)).2 !! 0
     = Some 3 /\
   (plot_results.parse 0 "checks_per_sec"
      (plot_results.read_csv "not_numeric.csv" (start example_files [] draws)).2).1
     = Raise (ValueError "3e")).
Proof. vm_compute. repeat split. Qed.

Lemma parse_non_numeric_raises_witness :
  list_DictReader scale_not_numeric = Ok (records_of scale_not_numeric) /\
  heap (World example_files [] draws [records_of scale_not_numeric] [] []) !! 0
    = Some (records_of scale_not_numeric) /\
  (exists e,
    plot_results.parse 0 "checks_per_sec"
      (World example_files [] draws [records_of scale_not_numeric] [] [])
    = (Raise e, World example_files [] draws [records_of scale_not_numeric] [] []) /\
    ConversionError e = true /\
    e = ValueError "3e") /\
  (exists e,
    plot_results.parse 0 "mem_rss_kb"
      (World example_files [] draws [records_of scale_not_numeric] [] [])
    = (Raise e, World example_files [] draws [records_of scale_not_numeric] [] []) /\
    ConversionError e = true /\
    e = ValueError ("20480" +:+ unit_separator)).
Proof.
  assert (H1 : list_DictReader scale_not_numeric = Ok (records_of scale_not_numeric))
    by (rewrite list_DictReader_spec; reflexivity).
  assert (H2 : heap (World example_files [] draws [records_of scale_not_numeric] [] []) !! 0
               = Some (records_of scale_not_numeric)) by reflexivity.
  split; [exact H1|]. split; [exact H2|]. split.
  - destruct (parse_non_numeric_raises _ 0 _ _ "checks_per_sec" H1 H2)
      as (e & Hp & He & pre & r & post & cell & Hrs & Hpre & Hcell & Hraise).
    + apply Exists_cons_tl, Exists_cons_hd.
      exists (CStr "3e"), (ValueError "3e"). split; vm_compute; reflexivity.
    + exists e. split; [exact Hp|]. split; [exact He|].
      assert (Hrun : (plot_results.parse 0 "checks_per_sec"
                        (World example_files [] draws [records_of scale_not_numeric] [] [])).1
                     = Raise (ValueError "3e")) by (vm_compute; reflexivity).
      rewrite Hp in Hrun. by injection Hrun.
  - destruct (parse_non_numeric_raises _ 0 _ _ "mem_rss_kb" H1 H2)
      as (e & Hp & He & _).
    + apply Exists_cons_tl, Exists_cons_hd.
      exists (CStr ("20480" +:+ unit_separator)), (ValueError ("20480" +:+ unit_separator)).
      split; vm_compute; reflexivity.
    + exists e. split; [exact Hp|]. split; [exact He|].
      assert (Hrun : (plot_results.parse 0 "mem_rss_kb"
                        (World example_files [] draws [records_of scale_not_numeric] [] [])).1
                     = Raise (ValueError ("20480" +:+ unit_separator)))
        by (vm_compute; reflexivity).
      rewrite Hp in Hrun. by injection Hrun.
Defined.

(** C3, as the code has it: the loader fails with [NotFoundError] exactly
    when the file is absent or unreadable, and with [FormatError] exactly
    when the tokenizer raises on a line; a file without header row and a
    file with lines shorter or longer than the header load like any other,
    into one record per data line, in file order.  The two other scripts use
    the same loader. *)
Theorem read_csv_errors (w : world) (path : string) :
  (raises NotFoundError (plot_results.read_csv path w).1 = true <->
     files w !! path = None \/ files w !! path = Some Unreadable) /\
  (raises FormatError (plot_results.read_csv path w).1 = true <->
     exists items, files w !! path = Some (Text items) /\ has_malformed items = true) /\
  (forall items,
      files w !! path = Some (Text items) -> has_malformed items = false ->
      plot_results.read_csv path w =
        (Ok (length (heap w)),
         World (files w) (dirs w) (agg w) (heap w ++ [records_of items]) (images w) (stdout w))) /\
  plot_readme.read_csv = plot_results.read_csv /\
  plot_nrdp.read_csv = plot_results.read_csv.
Proof.
  rewrite read_csv_eq.
  destruct (files w !! path) as [[|items]|] eqn:Hf; simpl.
  - repeat split; try done; try (intros; by right); try by intros (? & ? & ?).
  - destruct (has_malformed items) eqn:Hm; simpl.
    + repeat split; try done; try by (intros [?|?]).
      * intros _. eauto.
      * intros items' [= <-]. congruence.
    + repeat split; try done; try by (intros [?|?]).
      * intros (items' & [= <-] & ?). congruence.
      * by intros items' [= <-] _.
  - repeat split; try done; try (intros; by left); try by intros (? & ? & ?).
Qed.

(** C3 as stated fails: a file with a short and a long line has lines whose
    number of fields differs from the header's, and a file with no line has
    no header row; both load without any error. *)
Lemma read_csv_ragged_loads :
  (differing_fields ragged_rows = true /\
   files (start example_files [] draws) !! "ragged.csv" = Some (Text ragged_rows) /\
   raises FormatError (plot_results.read_csv "ragged.csv" (start example_files [] draws)).1 = false /\
   (plot_results.read_csv "ragged.csv" (start example_files [] draws)).1 = Ok 0) /\
  (no_header_row [] = true /\
   files (start example_files [] draws) !! "empty.csv" = Some (Text []) /\
   (plot_results.read_csv "empty.csv" (start example_files [] draws)).1 = Ok 0).
Proof. vm_compute. repeat split. Qed.

(** How the ragged file is loaded: the short line is padded with [None], the
    surplus of the long line is kept under the key [None]. *)
Lemma ragged_records :
  exists r1 r2,
    records_of ragged_rows = [r1; r2] /\
    r1 !! Some "services" = Some (CStr "10") /\
    r1 !! Some "checks_per_sec" = Some CNone /\
    r2 !! Some "checks_per_sec" = Some (CStr "3000") /\
    r2 !! None = Some (CList ["surplus"]).
Proof. eexists _, _. split; [reflexivity|]. vm_compute. repeat split. Qed.

(** C10: a file with a header row and no data row loads into the empty
    dataset, and projecting any column name from it gives the empty list,
    whether the header has that name or not. *)
Theorem header_only_projects_empty (w : world) (path : string) (fieldnames : list string) :
  files w !! path = Some (Text [Row fieldnames]) ->
  exists (v : ref) (w' : world),
    plot_readme.read_csv path w = (Ok v, w') /\
    heap w' !! v = Some [] /\
    forall key, plot_readme.parse v key w' = (Ok [], w').
Proof.
  intros Hfile. destruct read_csv_same as [-> _]. destruct parse_same as [-> _].
  eexists _, _. rewrite read_csv_eq, Hfile. simpl.
  split; [reflexivity|]. simpl. split; [apply heap_lookup_new|].
  intros key. rewrite parse_eq. simpl. by rewrite heap_lookup_new.
Qed.

Lemma header_only_projects_empty_witness :
  files (start example_files [] draws) !! "header_only.csv" = Some (Text [Row scale_header]) /\
  exists v w',
    plot_readme.read_csv "header_only.csv" (start example_files [] draws) = (Ok v, w') /\
    heap w' !! v = Some [] /\
    plot_readme.parse v "services" w' = (Ok [], w') /\
    plot_readme.parse v "no_such_column" w' = (Ok [], w').
Proof.
  assert (H1 : files (start example_files [] draws) !! "header_only.csv"
               = Some (Text [Row scale_header])) by (vm_compute; reflexivity).
  split; [exact H1|].
  destruct (header_only_projects_empty _ _ _ H1) as (v & w' & Hload & Hheap & Hparse).
  exists v, w'. repeat split; auto.
Defined.

(** ** Running a script step by step *)

Lemma wp_bind {A B} (m : M A) (k : A -> M B) Q w :
  wp m (fun r w' => match r with
                    | Ok a => wp (k a) Q w'
                    | Raise e => Q (Raise e) w'
                    end) w ->
  wp (bind m k) Q w.
Proof. unfold wp, bind. destruct (m w) as [[a|e] w']; auto. Qed.

Lemma wp_ret {A} (a : A) (Q : result A -> world -> Prop) w : Q (Ok a) w -> wp (ret a) Q w.
Proof. auto. Qed.

Lemma wp_lift {A} (r : result A) (Q : result A -> world -> Prop) w :
  (forall a, r = Ok a -> Q (Ok a) w) ->
  (forall e, r = Raise e -> Q (Raise e) w) ->
  wp (lift r) Q w.
Proof. intros H1 H2. unfold wp, lift; simpl. destruct r; [by apply H1 | by apply H2]. Qed.

Lemma wp_open path (Q : result (list reader_item) -> world -> Prop) fs ds b h imgs out :
  (fs !! path = None -> Q (Raise (FileNotFoundError path)) (World fs ds b h imgs out)) ->
  (fs !! path = Some Unreadable -> Q (Raise (PermissionError path)) (World fs ds b h imgs out)) ->
  (forall items, fs !! path = Some (Text items) -> Q (Ok items) (World fs ds b h imgs out)) ->
  wp (open path) Q (World fs ds b h imgs out).
Proof.
  intros H1 H2 H3. unfold wp, open; simpl.
  destruct (fs !! path) as [[|items]|]; [by apply H2 | by apply H3 | by apply H1].
Qed.

Lemma wp_new_list rows (Q : result ref -> world -> Prop) fs ds b h imgs out :
  Q (Ok (length h)) (World fs ds b (h ++ [rows]) imgs out) ->
  wp (new_list rows) Q (World fs ds b h imgs out).
Proof. auto. Qed.

Lemma wp_deref (r : ref) (rows : list record) (Q : result (list record) -> world -> Prop)
    (fs : gmap string file) (ds : list string) (b : backend) (h : list (list record))
    (imgs : list image) (out : list string) :
  h !! r = Some rows ->
  Q (Ok rows) (World fs ds b h imgs out) ->
  wp (deref r) Q (World fs ds b h imgs out).
Proof. unfold wp, deref; simpl. by intros ->. Qed.

Lemma wp_makedirs p (Q : result unit -> world -> Prop) fs ds b h imgs out :
  Q (Ok tt) (World fs (ds ++ filter (fun d => negb (dir_exists ds d))
                                    (ancestors (String.length p) p)) b h imgs out) ->
  wp (makedirs p) Q (World fs ds b h imgs out).
Proof. auto. Qed.

Lemma existsb_app_r {A} (f : A -> bool) l1 l2 :
  existsb f l2 = true -> existsb f (l1 ++ l2) = true.
Proof. intros H. rewrite existsb_app, H. apply orb_true_r. Qed.

(** A directory that [makedirs] was asked for exists afterwards. *)
Lemma made_dir_exists ds (l : list string) d :
  existsb (String.eqb d) l = true ->
  dir_exists (ds ++ filter (fun d' => negb (dir_exists ds d')) l) d = true.
Proof.
  intros Hin. unfold dir_exists at 1.
  destruct (String.eqb d "") eqn:Hd; [done|]. simpl.
  rewrite existsb_app.
  destruct (existsb (String.eqb d) ds) eqn:Hds; [done|]. simpl.
  apply existsb_exists in Hin as (x & Hx & Heq). apply String.eqb_eq in Heq as <-.
  apply existsb_exists. exists d. split; [|apply String.eqb_refl].
  apply list_elem_of_In, list_elem_of_filter. split; [|by apply list_elem_of_In].
  unfold dir_exists. rewrite Hd, Hds. done.
Qed.

(** [tight_layout]: the figure is laid out, or the run ends there. *)
Lemma wp_tight_layout fig rect (Q : result figure -> world -> Prop) fs ds b h imgs out :
  (forall msg, tight_layout_error b fig rect = Some msg ->
               Q (Raise (ValueError_draw msg)) (World fs ds b h imgs out)) ->
  (tight_layout_error b fig rect = None ->
   Q (Ok (fig_call_on fig (tight_layout rect))) (World fs ds b h imgs out)) ->
  wp (Figure_tight_layout fig rect) Q (World fs ds b h imgs out).
Proof.
  intros H1 H2. unfold wp, Figure_tight_layout; simpl.
  destruct (tight_layout_error b fig rect) as [msg|]; [by apply H1 | by apply H2].
Qed.

(** [savefig] into a directory that [makedirs] was asked for: the figure is
    rendered and written, or the run ends there. *)
Lemma wp_savefig fig path dpi bbox pad (Q : result unit -> world -> Prop)
    fs ds l b h imgs out :
  existsb (String.eqb (dirname path)) l = true ->
  (forall msg, print_figure_error b (Image path dpi bbox pad fig) = Some msg ->
               Q (Raise (ValueError_draw msg))
                 (World fs (ds ++ filter (fun d => negb (dir_exists ds d)) l) b h imgs out)) ->
  (print_figure_error b (Image path dpi bbox pad fig) = None ->
   Q (Ok tt) (World fs (ds ++ filter (fun d => negb (dir_exists ds d)) l) b h
                    (imgs ++ [Image path dpi bbox pad fig]) out)) ->
  wp (savefig fig path dpi bbox pad) Q
     (World fs (ds ++ filter (fun d => negb (dir_exists ds d)) l) b h imgs out).
Proof.
  intros Hin H1 H2. unfold wp, savefig; simpl.
  destruct (print_figure_error b _) as [msg|]; [by apply H1|].
  rewrite made_dir_exists by done. by apply H2.
Qed.

Lemma wp_print s (Q : result unit -> world -> Prop) fs ds b h imgs out :
  Q (Ok tt) (World fs ds b h imgs (out ++ lines_from "" s)) ->
  wp (print s) Q (World fs ds b h imgs out).
Proof. auto. Qed.

(** [plot] of two lists of one length. *)
Lemma wp_Axes_plot ax x y fmt label color lw ms (Q : result axes -> world -> Prop) w :
  length x = length y ->
  Q (Ok (call ax (plot x y fmt label color lw ms))) w ->
  wp (Axes_plot ax x y fmt label color lw ms) Q w.
Proof.
  intros Hlen HQ. unfold wp, Axes_plot, lift; simpl.
  by rewrite (proj2 (Nat.eqb_eq _ _) Hlen).
Qed.

Lemma wp_for_each_nil {A B} (body : A -> M B) (Q : result (list B) -> world -> Prop) w :
  Q (Ok []) w -> wp (for_each body []) Q w.
Proof. auto. Qed.

Lemma wp_for_each_cons {A B} (body : A -> M B) x xs (Q : result (list B) -> world -> Prop) w :
  wp (bind (body x) (fun y => bind (for_each body xs) (fun ys => ret (y :: ys)))) Q w ->
  wp (for_each body (x :: xs)) Q w.
Proof. auto. Qed.

Lemma heap_lookup_old {A} (h : list A) x y : ((h ++ [x]) ++ [y]) !! length h = Some x.
Proof. rewrite lookup_app_l by (rewrite length_app; simpl; lia). by apply list_lookup_middle. Qed.

(** Two projections of one dataset have the same length. *)
Ltac same_length :=
  lazymatch goal with
  | |- length ?x = length ?y =>
      match goal with
      | Hx : comprehension _ ?rs = Ok x, Hy : comprehension _ ?rs = Ok y |- _ =>
          exact (eq_trans (comprehension_length _ _ _ Hx)
                          (eq_sym (comprehension_length _ _ _ Hy)))
      end
  end.

(** One step of a run; a step that can fail leaves a goal for each outcome. *)
Ltac wp_step :=
  lazymatch goal with
  | |- wp (bind _ _) _ _ => apply wp_bind
  | |- wp (ret _) _ _ => apply wp_ret
  | |- wp (lift (comprehension _ _)) _ _ =>
      let ys := fresh "ys" in let e := fresh "e" in let H := fresh "Hcol" in
      apply wp_lift; [intros ys H | intros e H]
  | |- wp (lift (list_DictReader _)) _ _ =>
      let rs := fresh "rs" in let e := fresh "e" in let H := fresh "Hload" in
      apply wp_lift; [intros rs H | intros e H]
  | |- wp (lift (dict_get _ _)) _ _ =>
      let c := fresh "c" in let e := fresh "e" in let H := fresh "Hget" in
      apply wp_lift; [intros c H; injection H as <- | intros e H; discriminate H]
  | |- wp (open _) _ _ =>
      let items := fresh "items" in let H := fresh "Hfile" in
      apply wp_open; [intros H | intros H | intros items H]
  | |- wp (new_list _) _ _ => apply wp_new_list
  | |- wp (deref _) _ _ =>
      eapply wp_deref; [first [apply heap_lookup_new | apply heap_lookup_old | reflexivity]|]
  | |- wp (makedirs _) _ _ => apply wp_makedirs
  | |- wp (savefig _ _ _ _ _) _ _ =>
      let msg := fresh "msg" in let H := fresh "Hdraw" in
      apply wp_savefig; [vm_compute; reflexivity | intros msg H | intros H]
  | |- wp (Figure_tight_layout _ _) _ _ =>
      let msg := fresh "msg" in let H := fresh "Hlayout" in
      apply wp_tight_layout; [intros msg H | intros H]
  | |- wp (print _) _ _ => apply wp_print
  | |- wp (Axes_plot _ _ _ _ _ _ _ _) _ _ => apply wp_Axes_plot; [same_length|]
  | |- wp (for_each _ []) _ _ => apply wp_for_each_nil
  | |- wp (for_each _ (_ :: _)) _ _ => apply wp_for_each_cons
  | |- wp (for_each ?f ?l) _ _ =>
      let l' := eval vm_compute in l in change (for_each f l) with (for_each f l')
  end; cbv beta iota.

Ltac wp_run := repeat wp_step.

(** ** The Chart Composer *)

Ltac run_results :=
  unfold plot_results.main, plot_results.read_csv, plot_results.parse, plot_results.mem_rss_mb, start;
  lazy zeta; wp_run.

Ltac run_readme :=
  unfold plot_readme.main, plot_readme.read_csv, plot_readme.parse, plot_readme.mem_rss_mb,
    plot_readme.save, start;
  lazy zeta; wp_run.

Ltac run_nrdp :=
  unfold plot_nrdp.main, plot_nrdp.read_csv, plot_nrdp.parse, plot_nrdp.mem_rss_mb,
    plot_nrdp.save, start;
  lazy zeta; wp_run.

(** C8, as the code has it: whatever the files hold, every panel written by
    the three scripts has a logarithmic x axis; in plot_results.py and
    plot_readme.py the y axis is logarithmic exactly on the query-RPS and
    P95-latency panels; in plot_nrdp.py every panel, its latency panel
    included, keeps the linear y axis. *)
Theorem axis_scales (fs : gmap string file) (ds : list string) (b : backend) :
  all_panels log_x_and_y_by_kind (plot_results.main (start fs ds b)).2 = true /\
  all_panels log_x_and_y_by_kind (plot_readme.main (start fs ds b)).2 = true /\
  all_panels log_x_linear_y (plot_nrdp.main (start fs ds b)).2 = true.
Proof.
  split; [|split].
  - change (wp plot_results.main (fun _ w => all_panels log_x_and_y_by_kind w = true)
               (start fs ds b)).
    run_results; vm_compute; reflexivity.
  - change (wp plot_readme.main (fun _ w => all_panels log_x_and_y_by_kind w = true)
               (start fs ds b)).
    run_readme; vm_compute; reflexivity.
  - change (wp plot_nrdp.main (fun _ w => all_panels log_x_linear_y w = true) (start fs ds b)).
    run_nrdp; vm_compute; reflexivity.
Qed.

(** C8 as stated fails: the latency panel of plot_nrdp.py has a linear y
    axis. *)
Lemma nrdp_latency_linear :
  all_panels scales_as_claimed (plot_nrdp.main (start example_files [] draws)).2 = false /\
  exists img ax,
    images (plot_nrdp.main (start example_files [] draws)).2 !! 1 = Some img /\
    fig_axes (img_figure img) = [ax] /\
    title_of ax = "NRDP P95 Batch Latency" /\
    rps_or_latency (img_figure img) ax = true /\
    xscale ax = "log" /\
    yscale ax = "linear".
Proof.
  split; [vm_compute; reflexivity|].
  eexists _, _. split; [vm_compute; reflexivity|].
  split; [reflexivity|]. vm_compute. repeat split.
Qed.

(** C5, as the code has it: every panel written by plot_readme.py and
    plot_nrdp.py has the theme, with a grid of alpha 0.25; a panel written by
    plot_results.py has a grid of alpha 0.3 in the default colour and
    thousands separators, and keeps matplotlib's default background, label,
    tick, title and spine colours. *)
Theorem panels_theme (fs : gmap string file) (ds : list string) (b : backend) :
  all_panels (fun _ ax => themed ax && grid_alpha_is 0.25 ax)
             (plot_readme.main (start fs ds b)).2 = true /\
  all_panels (fun _ ax => themed ax && grid_alpha_is 0.25 ax)
             (plot_nrdp.main (start fs ds b)).2 = true /\
  all_panels (fun _ => default_colours_grid) (plot_results.main (start fs ds b)).2 = true.
Proof.
  split; [|split].
  - change (wp plot_readme.main
               (fun _ w => all_panels (fun _ ax => themed ax && grid_alpha_is 0.25 ax) w = true)
               (start fs ds b)).
    run_readme; vm_compute; reflexivity.
  - change (wp plot_nrdp.main
               (fun _ w => all_panels (fun _ ax => themed ax && grid_alpha_is 0.25 ax) w = true)
               (start fs ds b)).
    run_nrdp; vm_compute; reflexivity.
  - change (wp plot_results.main
               (fun _ w => all_panels (fun _ => default_colours_grid) w = true) (start fs ds b)).
    run_results; vm_compute; reflexivity.
Qed.

(** C5 as stated fails: the panels of plot_results.py are not themed. *)
Lemma results_panels_not_themed :
  all_panels (fun _ => themed) (plot_results.main (start example_files [] draws)).2 = false /\
  exists img ax,
    images (plot_results.main (start example_files [] draws)).2 !! 0 = Some img /\
    fig_axes (img_figure img) !! 0 = Some ax /\
    title_of ax = "Check Throughput" /\
    facecolor ax = None /\
    tick_color ax = None /\
    spine_color "left" ax = None /\
    grid_style ax = Some (true, 0.3%Q, None).
Proof.
  split; [vm_compute; reflexivity|].
  eexists _, _. split; [vm_compute; reflexivity|].
  split; [reflexivity|]. vm_compute. repeat split.
Qed.

(** ** Which errors a run can end in *)

Lemma cell_data_error (r : record) key e :
  (let? v := getitem r key in float v) = Raise e -> data_error e = true.
Proof.
  unfold getitem, rbind. destruct (r !! Some key) as [[s| |l]|]; simpl.
  - destruct (float_of_string s); by intros [= <-].
  - by intros [= <-].
  - by intros [= <-].
  - by intros [= <-].
Qed.

Lemma mem_cell_data_error (r : record) key e :
  (let? v := getitem r key in let? x := float v in Ok (div_1024 x)) = Raise e ->
  data_error e = true.
Proof.
  unfold getitem, rbind. destruct (r !! Some key) as [[s| |l]|]; simpl.
  - destruct (float_of_string s); by intros [= <-].
  - by intros [= <-].
  - by intros [= <-].
  - by intros [= <-].
Qed.

Lemma column_data_error rs key e :
  comprehension (fun r => let? v := getitem r key in float v) rs = Raise e ->
  data_error e = true.
Proof. intros (r & _ & Hr)%comprehension_Raise_at. by eapply cell_data_error. Qed.

Lemma mem_column_data_error rs key e :
  comprehension (fun r => let? v := getitem r key in
                          let? x := float v in Ok (div_1024 x)) rs = Raise e ->
  data_error e = true.
Proof. intros (r & _ & Hr)%comprehension_Raise_at. by eapply mem_cell_data_error. Qed.

Lemma list_DictReader_Raise items e : list_DictReader items = Raise e -> e = csv_Error.
Proof. rewrite list_DictReader_spec. destruct (has_malformed items); by intros [= <-]. Qed.

(** In a failed step of a run, what is known of the exception. *)
Ltac error_kind :=
  repeat match goal with
    | H : comprehension (fun r => let? v := getitem r _ in float v) _ = Raise ?e |- _ =>
        lazymatch goal with
        | _ : data_error e = true |- _ => fail
        | _ => pose proof (column_data_error _ _ _ H)
        end
    | H : comprehension _ _ = Raise ?e |- _ =>
        lazymatch goal with
        | _ : data_error e = true |- _ => fail
        | _ => pose proof (mem_column_data_error _ _ _ H)
        end
    | H : list_DictReader _ = Raise ?e |- _ =>
        apply list_DictReader_Raise in H; try subst e
    end.

(** ** Emit *)

Ltac emits_leaf :=
  unfold emits; split; [vm_compute; reflexivity|];
  split; [lazy beta iota delta [images app];
          repeat (apply Forall_cons_2; [apply made_dir_exists; vm_compute; reflexivity|]);
          apply Forall_nil_2|];
  split; [vm_compute; reflexivity|];
  split; [first [exact I | vm_compute; reflexivity]|];
  split; [vm_compute; reflexivity|];
  let p := fresh "p" in let Hp := fresh "Hp" in
  intros p Hp;
  error_kind;
  first [ discriminate Hp
        | injection Hp as Hp; first [ subst p; assumption | subst; discriminate ] ].

Lemma save_saves fig path w :
  saves fig path w (plot_readme.save fig path w).1 (plot_readme.save fig path w).2.
Proof.
  unfold saves, plot_readme.save, bind, savefig, print. simpl.
  destruct (print_figure_error (agg w) _) as [msg|]; simpl.
  - split; [|done]. split; [done | by intros [? _]].
  - destruct (dir_exists (dirs w) (dirname path)); simpl.
    + split; [done|]. done.
    + split; [|done]. split; [done | by intros [_ ?]].
Qed.

(** C6, as the code has it.  One [save] of plot_readme.py or plot_nrdp.py
    renders the caller's figure to the caller's path at DPI 150, cropped to
    the tight bounding box with a padding of 0.2, and prints one line that
    reports the path; it fails, writing and printing nothing, when the
    backend cannot render the figure or the directory is missing.  In a run
    every image is written at DPI 150 into the output directory, which the
    script has created by then if it was missing; the images are the charts
    of the script in its order, each at its own path, and all of them when
    the run ends well; the console gets one "Saved <path>" line per image
    written.  plot_readme.py and plot_nrdp.py, when they run to the end,
    print an empty line and a "Done!" line after the "Saved" lines;
    plot_results.py passes no cropping option and prints nothing else. *)
Theorem emit_behaviour (fs : gmap string file) (ds : list string) (b : backend) :
  (forall fig path w,
      saves fig path w (plot_readme.save fig path w).1 (plot_readme.save fig path w).2) /\
  plot_nrdp.save = plot_readme.save /\
  emits fs "" None None results_charts []
        (plot_results.main (start fs ds b)).1 (plot_results.main (start fs ds b)).2 /\
  emits fs "  " (Some "tight") (Some 0.2%Q) readme_charts
        [""; "Done! All graphs in assets/readme/"]
        (plot_readme.main (start fs ds b)).1 (plot_readme.main (start fs ds b)).2 /\
  emits fs "  " (Some "tight") (Some 0.2%Q) nrdp_charts
        [""; "Done! NRDP graphs in assets/readme/"]
        (plot_nrdp.main (start fs ds b)).1 (plot_nrdp.main (start fs ds b)).2.
Proof.
  split; [exact save_saves|]. split; [reflexivity|].
  split; [|split].
  - change (wp plot_results.main (emits fs "" None None results_charts []) (start fs ds b)).
    run_results; emits_leaf.
  - change (wp plot_readme.main
               (emits fs "  " (Some "tight") (Some 0.2%Q) readme_charts
                      [""; "Done! All graphs in assets/readme/"]) (start fs ds b)).
    run_readme; emits_leaf.
  - change (wp plot_nrdp.main
               (emits fs "  " (Some "tight") (Some 0.2%Q) nrdp_charts
                      [""; "Done! NRDP graphs in assets/readme/"]) (start fs ds b)).
    run_nrdp; emits_leaf.
Qed.

(** C6 as stated fails: plot_results.py saves without tight-bounding-box
    cropping, and plot_nrdp.py prints two more lines than it writes images. *)
Lemma emit_not_as_claimed :
  (emit_as_claimed (plot_results.main (start example_files [] draws)).2 = false /\
   map img_bbox_inches (images (plot_results.main (start example_files [] draws)).2) = [None; None]) /\
  (emit_as_claimed (plot_nrdp.main (start example_files [] draws)).2 = false /\
   length (images (plot_nrdp.main (start example_files [] draws)).2) = 3 /\
   stdout (plot_nrdp.main (start example_files [] draws)).2
   = ["  Saved assets/readme/nrdp_throughput.png";
      "  Saved assets/readme/nrdp_latency.png";
      "  Saved assets/readme/nrdp_memory.png";
      "";
      "Done! NRDP graphs in assets/readme/"]).
Proof. vm_compute. repeat split. Qed.

(** ** Series styling *)

Lemma readme_styles fs ds b :
  forallb before_after_style (all_series (plot_readme.main (start fs ds b)).2) = true.
Proof.
  change (wp plot_readme.main
            (fun _ w => forallb before_after_style (all_series w) = true) (start fs ds b)).
  run_readme; vm_compute; reflexivity.
Qed.

Lemma before_after_style_keyed s1 s2 :
  before_after_style s1 = true -> before_after_style s2 = true ->
  s_label s1 = s_label s2 ->
  s_color s1 = s_color s2 /\ s_fmt s1 = s_fmt s2.
Proof.
  unfold before_after_style. intros H1 H2 Hl. rewrite <- Hl in H2.
  destruct (String.prefix "Before" (s_label s1)); [|destruct (String.prefix "After" (s_label s1))].
  - apply andb_true_iff in H1 as [?%String.eqb_eq ?%String.eqb_eq].
    apply andb_true_iff in H2 as [?%String.eqb_eq ?%String.eqb_eq]. split; congruence.
  - apply andb_true_iff in H1 as [?%String.eqb_eq ?%String.eqb_eq].
    apply andb_true_iff in H2 as [?%String.eqb_eq ?%String.eqb_eq]. split; congruence.
  - discriminate.
Qed.

(** C7: take two runs of plot_readme.py, on identical input or not, and a
    series drawn in each, at any position in any panel: when the two series
    carry the same label they have the same colour and the same marker and
    line style.  "Before" is red (#d62728) with round markers, "After" is
    green (#2ca02c) with square markers. *)
Theorem same_label_same_style (fs1 fs2 : gmap string file) (ds1 ds2 : list string)
    (b1 b2 : backend) (i j : nat) (s1 s2 : series) :
  all_series (plot_readme.main (start fs1 ds1 b1)).2 !! i = Some s1 ->
  all_series (plot_readme.main (start fs2 ds2 b2)).2 !! j = Some s2 ->
  s_label s1 = s_label s2 ->
  s_color s1 = s_color s2 /\ s_fmt s1 = s_fmt s2 /\ marker s1 = marker s2 /\
  (s_label s1 = "Before" -> s_color s1 = "#d62728" /\ marker s1 = Some "o"%char) /\
  (s_label s1 = "After" -> s_color s1 = "#2ca02c" /\ marker s1 = Some "s"%char).
Proof.
  intros H1 H2 Hlabel.
  assert (Hs1 : before_after_style s1 = true).
  { eapply (proj1 (forallb_forall _ _) (readme_styles fs1 ds1 b1)).
    apply list_elem_of_In. by eapply list_elem_of_lookup_2. }
  assert (Hs2 : before_after_style s2 = true).
  { eapply (proj1 (forallb_forall _ _) (readme_styles fs2 ds2 b2)).
    apply list_elem_of_In. by eapply list_elem_of_lookup_2. }
  destruct (before_after_style_keyed _ _ Hs1 Hs2 Hlabel) as [Hc Hf].
  split; [done|]. split; [done|]. split; [unfold marker; by rewrite Hf|].
  unfold before_after_style, marker in *. split; intros Hl; rewrite Hl in Hs1; simpl in Hs1.
  - apply andb_true_iff in Hs1 as [?%String.eqb_eq ->%String.eqb_eq]. done.
  - apply andb_true_iff in Hs1 as [?%String.eqb_eq ->%String.eqb_eq]. done.
Qed.

Lemma same_label_same_style_witness :
  all_series (plot_readme.main (start example_files [] draws)).2 !! 4
    = Some (Series [Finite false 10 0; Finite false 1000 0]
                   [Finite false 12 0; Finite false 40 0] "o-" "Before" "#d62728") /\
  all_series (plot_readme.main (start example_files [] draws)).2 !! 6
    = Some (Series [Finite false 10 0; Finite false 1000 0]
                   [Finite false 9005 (-1); Finite false 90 0] "o-" "Before" "#d62728") /\
  marker (Series [Finite false 10 0; Finite false 1000 0]
                 [Finite false 12 0; Finite false 40 0] "o-" "Before" "#d62728")
  = marker (Series [Finite false 10 0; Finite false 1000 0]
                   [Finite false 9005 (-1); Finite false 90 0] "o-" "Before" "#d62728").
Proof.
  assert (H1 : all_series (plot_readme.main (start example_files [] draws)).2 !! 4
               = Some (Series [Finite false 10 0; Finite false 1000 0]
                              [Finite false 12 0; Finite false 40 0] "o-" "Before" "#d62728"))
    by (vm_compute; reflexivity).
  assert (H2 : all_series (plot_readme.main (start example_files [] draws)).2 !! 6
               = Some (Series [Finite false 10 0; Finite false 1000 0]
                              [Finite false 9005 (-1); Finite false 90 0] "o-" "Before" "#d62728"))
    by (vm_compute; reflexivity).
  split; [exact H1|]. split; [exact H2|].
  exact (proj1 (proj2 (proj2 (same_label_same_style _ _ _ _ _ _ _ _ _ _ H1 H2 eq_refl)))).
Defined.

(** ** The two-series comparison panel *)

(** With the column in the header, only [float] can make the projection
    fail. *)
Lemma column_header_Raise fieldnames (lines : list (list string)) (c : string) e :
  c ∈ fieldnames ->
  comprehension (fun r => let? v := getitem r c in float v) (dict_row fieldnames <$> lines)
  = Raise e ->
  ConversionError e = true.
Proof.
  intros Hc (r & Hr & He)%comprehension_Raise_at.
  apply list_elem_of_fmap in Hr as (row & -> & _).
  destruct (proj2 (dict_row_is_Some fieldnames row c) Hc) as [cell Hcell].
  unfold getitem, rbind in He. rewrite Hcell in He.
  destruct cell as [s| |l]; simpl in He; [destruct (float_of_string s)|..]; by inversion He.
Qed.

Lemma wp_open_known path items (Q : result (list reader_item) -> world -> Prop)
    (fs : gmap string file) ds b h imgs out :
  fs !! path = Some (Text items) ->
  Q (Ok items) (World fs ds b h imgs out) ->
  wp (open path) Q (World fs ds b h imgs out).
Proof. intros Hf HQ. unfold wp, open; simpl. by rewrite Hf. Qed.

Lemma wp_lift_known {A} (r : result A) a (Q : result A -> world -> Prop) w :
  r = Ok a -> Q (Ok a) w -> wp (lift r) Q w.
Proof. by intros ->. Qed.

(** A step of a run whose input files are known to load. *)
Ltac wp_step_known :=
  lazymatch goal with
  | |- wp (open ?p) _ (World ?fs _ _ _ _ _) =>
      lazymatch goal with
      | H : fs !! p = Some (Text _) |- _ => apply (wp_open_known _ _ _ _ _ _ _ _ _ H)
      end
  | |- wp (lift (list_DictReader ?items)) _ _ =>
      lazymatch goal with
      | H : list_DictReader items = Ok _ |- _ => apply (wp_lift_known _ _ _ _ H)
      end
  end; cbv beta iota.

Ltac run_readme_known :=
  unfold plot_readme.main, plot_readme.read_csv, plot_readme.parse, plot_readme.mem_rss_mb,
    plot_readme.save, start;
  lazy zeta; repeat first [wp_step_known | wp_step].

(** No run of plot_readme.py ends in the error [plot] raises for an x and a
    y of different lengths. *)
Lemma readme_no_shape_error fs ds b nx ny :
  (plot_readme.main (start fs ds b)).1 <> Raise (ValueError_shape nx ny).
Proof.
  change (wp plot_readme.main (fun r _ => r <> Raise (ValueError_shape nx ny)) (start fs ds b)).
  run_readme;
    (let H := fresh in
     intros H; error_kind; first [discriminate H | injection H as ->; discriminate]).
Qed.

Section comparison.

Variables (fs : gmap string file) (ds : list string) (b : backend).
Variables (header3 header4 : list string) (rest3 rest4 : list reader_item).
Hypothesis file3 : fs !! "bench/scale_results_v3.csv" = Some (Text (Row header3 :: rest3)).
Hypothesis file4 : fs !! "bench/scale_results_v4.csv" = Some (Text (Row header4 :: rest4)).
Hypothesis tokens3 : has_malformed rest3 = false.
Hypothesis tokens4 : has_malformed rest4 = false.

Let rs3 : list record := dict_row header3 <$> data_lines rest3.
Let rs4 : list record := dict_row header4 <$> data_lines rest4.

(** With numeric columns the first chart group is composed, whatever the
    two row counts are, and handed to [savefig]: it is the first image
    written, unless the backend cannot render it, and then the run ends in
    that error with no image written. *)
Lemma comparison_drawn xs3 xs4 ys3 ys4 :
  column rs3 "services" = Ok xs3 -> column rs4 "services" = Ok xs4 ->
  column rs3 "checks_per_sec" = Ok ys3 -> column rs4 "checks_per_sec" = Ok ys4 ->
  exists fig ax,
    fig_axes fig = [ax] /\
    series_of ax = [Series xs3 ys3 "o-" "Before (fork per check)" "#d62728";
                    Series xs4 ys4 "s-" "After (fork server)" "#2ca02c"] /\
    match print_figure_error b (Image "assets/readme/check_throughput.png" 150
                                      (Some "tight") (Some 0.2%Q) fig) with
    | None =>
        images (plot_readme.main (start fs ds b)).2 !! 0
        = Some (Image "assets/readme/check_throughput.png" 150 (Some "tight") (Some 0.2%Q) fig)
    | Some msg =>
        (plot_readme.main (start fs ds b)).1 = Raise (ValueError_draw msg) /\
        images (plot_readme.main (start fs ds b)).2 = []
    end.
Proof.
  pose proof (list_DictReader_header header3 rest3 tokens3) as load3.
  pose proof (list_DictReader_header header4 rest4 tokens4) as load4.
  fold rs3 in load3. fold rs4 in load4. clearbody rs3 rs4.
  unfold column. intros Hx3 Hx4 Hy3 Hy4.
  change (wp plot_readme.main
            (fun r w => exists fig ax,
                 fig_axes fig = [ax] /\
                 series_of ax = [Series xs3 ys3 "o-" "Before (fork per check)" "#d62728";
                                 Series xs4 ys4 "s-" "After (fork server)" "#2ca02c"] /\
                 match print_figure_error b (Image "assets/readme/check_throughput.png" 150
                                                   (Some "tight") (Some 0.2%Q) fig) with
                 | None =>
                     images w !! 0
                     = Some (Image "assets/readme/check_throughput.png" 150
                                   (Some "tight") (Some 0.2%Q) fig)
                 | Some msg => r = Raise (ValueError_draw msg) /\ images w = []
                 end)
            (start fs ds b)).
  run_readme_known;
    first [ match goal with
            | H1 : ?t = Raise _, H2 : ?t = Ok _ |- _ => rewrite H2 in H1; discriminate H1
            end
          | repeat match goal with
              | H1 : ?t = Ok ?a, H2 : ?t = Ok ?b |- _ =>
                  first [is_var b; rewrite H1 in H2; injection H2 as <-
                        |is_var a; rewrite H2 in H1; injection H1 as <-]
              end;
            lazymatch reverse goal with
            | Hd : print_figure_error _ (Image _ _ _ _ ?fig) = _ |- _ =>
                exists fig; eexists; split; [reflexivity|];
                split; [vm_compute; reflexivity|];
                change (path_join "assets/readme" "check_throughput.png")
                  with "assets/readme/check_throughput.png" in Hd;
                rewrite Hd; first [reflexivity | split; reflexivity]
            end ].
Qed.

Hypothesis services3 : "services" ∈ header3.
Hypothesis services4 : "services" ∈ header4.
Hypothesis checks3 : "checks_per_sec" ∈ header3.
Hypothesis checks4 : "checks_per_sec" ∈ header4.

(** A cell of the requested column that is not a number, in either dataset,
    ends the run in a [ConversionError] before any image is written. *)
Lemma comparison_not_numeric :
  Exists (not_numeric "checks_per_sec") (rs3 ++ rs4) ->
  exists e, (plot_readme.main (start fs ds b)).1 = Raise e /\
            ConversionError e = true /\
            images (plot_readme.main (start fs ds b)).2 = [].
Proof.
  pose proof (list_DictReader_header header3 rest3 tokens3) as load3.
  pose proof (list_DictReader_header header4 rest4 tokens4) as load4.
  assert (conv3 : forall c e, c ∈ header3 ->
            comprehension (fun r => let? v := getitem r c in float v) rs3 = Raise e ->
            ConversionError e = true) by (intros c e; apply column_header_Raise).
  assert (conv4 : forall c e, c ∈ header4 ->
            comprehension (fun r => let? v := getitem r c in float v) rs4 = Raise e ->
            ConversionError e = true) by (intros c e; apply column_header_Raise).
  fold rs3 in load3. fold rs4 in load4. clearbody rs3 rs4.
  intros Hbad.
  change (wp plot_readme.main
            (fun r w => exists e, r = Raise e /\ ConversionError e = true /\ images w = [])
            (start fs ds b)).
  run_readme_known;
    first [ lazymatch goal with
            | |- exists e', Raise ?e = Raise e' /\ _ =>
                exists e; split; [reflexivity|];
                split; [first [eapply conv3; [|eassumption]; assumption
                              |eapply conv4; [|eassumption]; assumption] | reflexivity]
            end
          | exfalso; apply Exists_app in Hbad; destruct Hbad as [Hb|Hb];
            (eapply column_Ok_numeric; [|exact Hb]); unfold column; eassumption ].
Qed.

End comparison.

(** C4: let the two CSV files of plot_readme.py load, with the services
    and checks_per_sec columns in both headers, and let their row counts be
    anything.  The run never ends in the error [plot] raises for an x and a
    y of different lengths.  When the columns hold numbers the first chart
    group is composed with its two series, each as long as its own dataset,
    and handed to [savefig]: it is the first image written, unless the
    backend cannot render it.  And when either dataset has a cell under
    checks_per_sec that is not a number the run ends in a ConversionError
    with no image written. *)
Theorem comparison_panel (fs : gmap string file) (ds : list string) (b : backend)
    (header3 header4 : list string) (rest3 rest4 : list reader_item) :
  fs !! "bench/scale_results_v3.csv" = Some (Text (Row header3 :: rest3)) ->
  fs !! "bench/scale_results_v4.csv" = Some (Text (Row header4 :: rest4)) ->
  has_malformed rest3 = false ->
  has_malformed rest4 = false ->
  "services" ∈ header3 -> "services" ∈ header4 ->
  "checks_per_sec" ∈ header3 -> "checks_per_sec" ∈ header4 ->
  let rs3 := dict_row header3 <$> data_lines rest3 in
  let rs4 := dict_row header4 <$> data_lines rest4 in
  (forall nx ny, (plot_readme.main (start fs ds b)).1 <> Raise (ValueError_shape nx ny)) /\
  (forall xs3 xs4 ys3 ys4,
      column rs3 "services" = Ok xs3 -> column rs4 "services" = Ok xs4 ->
      column rs3 "checks_per_sec" = Ok ys3 -> column rs4 "checks_per_sec" = Ok ys4 ->
      (length xs3 = length (data_lines rest3) /\ length ys3 = length (data_lines rest3) /\
       length xs4 = length (data_lines rest4) /\ length ys4 = length (data_lines rest4)) /\
      exists fig ax,
        fig_axes fig = [ax] /\
        series_of ax = [Series xs3 ys3 "o-" "Before (fork per check)" "#d62728";
                        Series xs4 ys4 "s-" "After (fork server)" "#2ca02c"] /\
        match print_figure_error b (Image "assets/readme/check_throughput.png" 150
                                          (Some "tight") (Some 0.2%Q) fig) with
        | None =>
            images (plot_readme.main (start fs ds b)).2 !! 0
            = Some (Image "assets/readme/check_throughput.png" 150
                          (Some "tight") (Some 0.2%Q) fig)
        | Some msg =>
            (plot_readme.main (start fs ds b)).1 = Raise (ValueError_draw msg) /\
            images (plot_readme.main (start fs ds b)).2 = []
        end) /\
  (Exists (not_numeric "checks_per_sec") (rs3 ++ rs4) ->
   exists e, (plot_readme.main (start fs ds b)).1 = Raise e /\
             ConversionError e = true /\
             images (plot_readme.main (start fs ds b)).2 = []).
Proof.
  intros file3 file4 tokens3 tokens4 services3 services4 checks3 checks4 rs3 rs4.
  split; [intros nx ny; apply readme_no_shape_error|]. split.
  - intros xs3 xs4 ys3 ys4 Hx3 Hx4 Hy3 Hy4. split.
    + apply column_length in Hx3, Hx4, Hy3, Hy4. unfold rs3, rs4 in *.
      rewrite length_fmap in Hx3, Hx4, Hy3, Hy4. done.
    + by eapply comparison_drawn.
  - by eapply comparison_not_numeric.
Qed.

Lemma comparison_panel_witness :
  length (data_lines (tail scale_two_rows)) = 2 /\
  length (data_lines (tail scale_three_rows)) = 3 /\
  (exists img ax,
    images (plot_readme.main (start example_files [] draws)).2 !! 0 = Some img /\
    img_path img = "assets/readme/check_throughput.png" /\
    fig_axes (img_figure img) = [ax] /\
    series_of ax
    = [Series [Finite false 10 0; Finite false 1000 0]
              [Finite false 50 0; Finite false 3000 0]
              "o-" "Before (fork per check)" "#d62728";
       Series [Finite false 10 0; Finite false 1 3; Finite false 100000 0]
              [Finite false 500 0; Finite false 30 3; Finite false 280000 (-1)]
              "s-" "After (fork server)" "#2ca02c"]) /\
  (exists e,
    (plot_readme.main (start not_numeric_files [] draws)).1 = Raise e /\
    ConversionError e = true /\
    e = ValueError "3e" /\
    images (plot_readme.main (start not_numeric_files [] draws)).2 = []).
Proof.
  split; [reflexivity|]. split; [reflexivity|]. split.
  - destruct (comparison_panel example_files [] draws scale_header scale_header
                (tail scale_two_rows) (tail scale_three_rows))
      as (_ & Hdrawn & _).
    + vm_compute; reflexivity.
    + vm_compute; reflexivity.
    + reflexivity.
    + reflexivity.
    + repeat constructor.
    + repeat constructor.
    + repeat constructor.
    + repeat constructor.
    + destruct (Hdrawn [Finite false 10 0; Finite false 1000 0]
                       [Finite false 10 0; Finite false 1 3; Finite false 100000 0]
                       [Finite false 50 0; Finite false 3000 0]
                       [Finite false 500 0; Finite false 30 3; Finite false 280000 (-1)])
        as (_ & fig & ax & Hax & Hseries & Himg).
      * vm_compute; reflexivity.
      * vm_compute; reflexivity.
      * vm_compute; reflexivity.
      * vm_compute; reflexivity.
      * simpl in Himg. eexists _, ax. split; [exact Himg|].
        split; [reflexivity|]. split; [exact Hax | exact Hseries].
  - destruct (comparison_panel not_numeric_files [] draws scale_header scale_header
                (tail scale_two_rows) (tail scale_not_numeric))
      as (_ & _ & Hraise).
    + vm_compute; reflexivity.
    + vm_compute; reflexivity.
    + reflexivity.
    + reflexivity.
    + repeat constructor.
    + repeat constructor.
    + repeat constructor.
    + repeat constructor.
    + destruct Hraise as (e & Hrun & He & Himgs).
      * apply Exists_app. right. apply Exists_cons_tl, Exists_cons_hd.
        exists (CStr "3e"), (ValueError "3e"). split; vm_compute; reflexivity.
      * exists e. split; [exact Hrun|]. split; [exact He|]. split; [|exact Himgs].
        assert (Hval : (plot_readme.main (start not_numeric_files [] draws)).1
                       = Raise (ValueError "3e")) by (vm_compute; reflexivity).
        rewrite Hrun in Hval. by injection Hval.
Defined.

(** ** Datasets after load *)

Ltac heap_leaf fs :=
  first [ exists []; split; [symmetry; apply app_nil_r | apply Forall_nil_2]
        | eexists [_]; split; [reflexivity|]
        | eexists [_; _]; split; [symmetry; apply (app_assoc _ [_] [_]) |] ];
  repeat (apply Forall_cons_2;
          [ match goal with
            | Hf : fs !! ?p = Some (Text ?it), Hl : list_DictReader ?it = Ok ?rs
              |- loaded_from _ ?rs => exists p, it; split; assumption
            end |]);
  apply Forall_nil_2.

Lemma heap_results fs ds b h imgs out :
  exists new, heap (plot_results.main (World fs ds b h imgs out)).2 = h ++ new /\
              Forall (loaded_from fs) new.
Proof.
  change (wp plot_results.main
            (fun _ w => exists new, heap w = h ++ new /\ Forall (loaded_from fs) new)
            (World fs ds b h imgs out)).
  run_results; heap_leaf fs.
Qed.

Lemma heap_readme fs ds b h imgs out :
  exists new, heap (plot_readme.main (World fs ds b h imgs out)).2 = h ++ new /\
              Forall (loaded_from fs) new.
Proof.
  change (wp plot_readme.main
            (fun _ w => exists new, heap w = h ++ new /\ Forall (loaded_from fs) new)
            (World fs ds b h imgs out)).
  run_readme; heap_leaf fs.
Qed.

Lemma heap_nrdp fs ds b h imgs out :
  exists new, heap (plot_nrdp.main (World fs ds b h imgs out)).2 = h ++ new /\
              Forall (loaded_from fs) new.
Proof.
  change (wp plot_nrdp.main
            (fun _ w => exists new, heap w = h ++ new /\ Forall (loaded_from fs) new)
            (World fs ds b h imgs out)).
  run_nrdp; heap_leaf fs.
Qed.

Lemma mem_mb_eq (v : ref) w :
  plot_readme.mem_rss_mb v w =
  match heap w !! v with
  | Some rs => (comprehension (fun r => let? v := getitem r "mem_rss_kb" in
                                        let? x := float v in Ok (div_1024 x)) rs, w)
  | None => (Raise SystemError, w)
  end.
Proof.
  unfold plot_readme.mem_rss_mb, bind, deref, lift.
  destruct (heap w !! v); [|done]. by destruct (comprehension _ _).
Qed.

(** C9: projecting a column -- [parse], or the memory column scaled to MB
    -- leaves the world, and with it every dataset, as it was, so that a
    second projection of the same column returns what the first returned;
    and a whole run of any of the three scripts keeps every dataset that
    exists unchanged and in place, adding only the datasets it loads, each
    equal to what its file loads to. *)
Theorem datasets_unchanged :
  (forall v key w, (plot_results.parse v key w).2 = w) /\
  (forall v w, (plot_readme.mem_rss_mb v w).2 = w) /\
  (forall v key w,
      plot_results.parse v key (plot_results.parse v key w).2 = plot_results.parse v key w) /\
  (forall fs ds b h imgs out,
      (exists new, heap (plot_results.main (World fs ds b h imgs out)).2 = h ++ new /\
                   Forall (loaded_from fs) new) /\
      (exists new, heap (plot_readme.main (World fs ds b h imgs out)).2 = h ++ new /\
                   Forall (loaded_from fs) new) /\
      (exists new, heap (plot_nrdp.main (World fs ds b h imgs out)).2 = h ++ new /\
                   Forall (loaded_from fs) new)).
Proof.
  assert (Hframe : forall v key w, (plot_results.parse v key w).2 = w).
  { intros v key w. rewrite parse_eq. by destruct (heap w !! v). }
  split; [exact Hframe|]. split.
  { intros v w. rewrite mem_mb_eq. by destruct (heap w !! v). }
  split.
  { intros v key w. by rewrite Hframe. }
  intros fs ds b h imgs out.
  split; [apply heap_results|]. split; [apply heap_readme | apply heap_nrdp].
Qed.

(** * Further properties *)

(** ** Row dicts: which field a cell holds *)












(** ** Ragged and blank lines *)










(** ** A column the header does not have *)



(** ** The memory series *)



(** ** Styling an axes that is already in use *)




(** ** How a run can end *)





(** ** A backend that renders nothing *)



